(** * EM6400NG RS-485 reader: the register-mapped polling engine

    A shallow embedding of [em6400ng_gui.py]: the register model
    ([RegItem]), the word decoder ([decode_float32]), and the
    connect / poll / disconnect methods of [EM6400NGApp], followed by the
    properties of the engine that the specification states.

    Python integers are [Z]; the bit operators [&], [|], [<<] are
    [Z.land], [Z.lor], [Z.shiftl] (both sides use the infinite
    two's-complement reading of negative numbers).  Strings are
    [String.string] restricted to ASCII.  A Python [float] that
    [struct.unpack] reads from four bytes is kept as the binary32 datum
    it equals, a NaN in its quiet form.  What [int] reads in an entry
    field and which intervals [time.sleep] accepts are parameters of the
    program (class [Python]).  A method of the application object is a
    computation over the object's fields that may raise and that emits
    the calls it makes on its collaborators (the Modbus client, the Tk
    widgets) as a trace of events. *)

From Stdlib Require Import ZArith QArith Qabs Lia String Ascii Bool.
From Stdlib Require Import Uint63 SpecFloat PrimFloat FloatOps.
From stdpp Require Import base numbers list strings pretty gmap.

Local Open Scope Z_scope.

(** ** Exceptions and outcomes *)

Inductive exn : Type :=
  | ValueError (msg : string)
  | IndexError
  | StructError
  | AttributeError
  | OverflowError
  | ClientError (msg : string).

Inductive outcome (A : Type) : Type :=
  | Ret (a : A)
  | Exn (e : exn).
Arguments Ret {A} a.
Arguments Exn {A} e.

Definition raises {A} (o : outcome A) : bool :=
  match o with Ret _ => false | Exn _ => true end.

(** ** Python built-ins used by the program *)

Module Py.

(** [str.isspace] on ASCII: TAB..CR, FS..US and the space. *)
Definition isspace (c : ascii) : bool :=
  let n := Z.of_nat (nat_of_ascii c) in
  ((9 <=? n) && (n <=? 13)) || ((28 <=? n) && (n <=? 32)).

Fixpoint lstrip (s : string) : string :=
  match s with
  | EmptyString => EmptyString
  | String c s' => if isspace c then lstrip s' else s
  end.

(** [rstrip] walks the string once: a suffix made of white space only
    is dropped. *)
Fixpoint rstrip (s : string) : string :=
  match s with
  | EmptyString => EmptyString
  | String c s' =>
      match rstrip s' with
      | EmptyString => if isspace c then EmptyString else String c EmptyString
      | r => String c r
      end
  end.

Definition strip (s : string) : string := rstrip (lstrip s).

Definition upper_char (c : ascii) : ascii :=
  let n := nat_of_ascii c in
  if (97 <=? n)%nat && (n <=? 122)%nat then ascii_of_nat (n - 32) else c.

Fixpoint upper (s : string) : string :=
  match s with
  | EmptyString => EmptyString
  | String c s' => String (upper_char c) (upper s')
  end.

Definition digit (c : ascii) : option Z :=
  let n := Z.of_nat (nat_of_ascii c) in
  if (48 <=? n) && (n <=? 57) then Some (n - 48) else None.

Definition is_underscore (c : ascii) : bool := (nat_of_ascii c =? 95)%nat.

(** Default of [sys.int_max_str_digits]: a literal with more digits is
    refused with [ValueError]. *)
Definition int_max_str_digits : Z := 4300.

(** The digits of a base-10 literal, after the sign.  [acc] is the value
    read so far, [n] the number of digits read, [after_digit] tells
    whether the previous character was a digit: an underscore is legal
    only between two digits. *)
Fixpoint int_digits (acc n : Z) (after_digit : bool) (s : string) : option Z :=
  match s with
  | EmptyString =>
      if after_digit && (n <=? int_max_str_digits) then Some acc else None
  | String c s' =>
      match digit c with
      | Some d => int_digits (10 * acc + d) (n + 1) true s'
      | None =>
          if is_underscore c && after_digit then
            match s' with
            | EmptyString => None
            | String c' _ =>
                match digit c' with
                | Some _ => int_digits acc n false s'
                | None => None
                end
            end
          else None
      end
  end.

(** The white space [int] skips around an ASCII literal: TAB..CR and
    the space, and not FS..US, which [str.strip] does remove. *)
Definition int_space (c : ascii) : bool :=
  let n := Z.of_nat (nat_of_ascii c) in
  ((9 <=? n) && (n <=? 13)) || (n =? 32).

Fixpoint int_lstrip (s : string) : string :=
  match s with
  | EmptyString => EmptyString
  | String c s' => if int_space c then int_lstrip s' else s
  end.

Fixpoint int_rstrip (s : string) : string :=
  match s with
  | EmptyString => EmptyString
  | String c s' =>
      match int_rstrip s' with
      | EmptyString => if int_space c then EmptyString else String c EmptyString
      | r => String c r
      end
  end.

Definition int_literal (s : string) : option Z :=
  match int_rstrip (int_lstrip s) with
  | EmptyString => None
  | String c r =>
      if (nat_of_ascii c =? 45)%nat then Z.opp <$> int_digits 0 0 false r
      else if (nat_of_ascii c =? 43)%nat then int_digits 0 0 false r
      else int_digits 0 0 false (String c r)
  end.

(** [int(s)] for a [str] argument made of ASCII characters: the value,
    or [ValueError].  (On other strings [int] also reads the decimal
    digits and skips the white space of other scripts; this function
    refuses them, and is used on ASCII strings only.) *)
Definition int (s : string) : outcome Z :=
  match int_literal s with
  | Some n => Ret n
  | None =>
      Exn (ValueError ("invalid literal for int() with base 10: " ++ s))
  end.

End Py.

(** ** The [struct] module, for the two formats the program uses *)

(** An IEEE-754 binary32 datum: the three fields of its 32-bit encoding.
    Every field combination is a legal datum (zeros, subnormals, normal
    numbers, infinities, and NaNs with their payload). *)
Record float32 : Type := MkFloat32 {
  f32_sign : bool;
  f32_exponent : Z;
  f32_fraction : Z
}.

Module Struct.

(** [struct.pack(">I", raw)]: four bytes, most significant first;
    [struct.error] when [raw] is not in [0, 2^32). *)
Definition pack_I (raw : Z) : outcome (list Z) :=
  if (0 <=? raw) && (raw <? 2 ^ 32) then
    Ret [ Z.land (Z.shiftr raw 24) 255; Z.land (Z.shiftr raw 16) 255;
          Z.land (Z.shiftr raw 8) 255; Z.land raw 255 ]
  else Exn StructError.

(** The three fields of a 32-bit word. *)
Definition f32_fields (w : Z) : float32 :=
  {| f32_sign := Z.testbit w 31;
     f32_exponent := Z.land (Z.shiftr w 23) 255;
     f32_fraction := Z.land w 8388607 |}.

(** A NaN whose fraction has its top bit clear is a signalling NaN. *)
Definition f32_is_signalling (x : float32) : bool :=
  (f32_exponent x =? 255) && negb (f32_fraction x =? 0)
  && negb (Z.testbit (f32_fraction x) 22).

(** Converting a signalling NaN sets the top bit of its fraction and
    keeps the rest of the payload. *)
Definition f32_quiet (x : float32) : float32 :=
  if f32_is_signalling x
  then MkFloat32 (f32_sign x) (f32_exponent x) (f32_fraction x + 4194304)
  else x.

(** The number [struct.unpack(">f", ...)] reads from the 32-bit word [w].
    The Python [float] it returns is the binary64 number equal to the
    binary32 datum of [w]; it is kept here as that datum.  The conversion
    to binary64 quiets a signalling NaN, so the datum is the quieted
    one. *)
Definition f32_of_bits (w : Z) : float32 := f32_quiet (f32_fields w).

(** [struct.pack(">f", x)] as a 32-bit word, for a [float] kept as the
    binary32 datum it equals. *)
Definition f32_to_bits (x : float32) : Z :=
  (if f32_sign x then 2 ^ 31 else 0) + f32_exponent x * 2 ^ 23 + f32_fraction x.

(** [struct.unpack(">f", b)[0]]: the four bytes are read most
    significant first as the encoding of a binary32 datum. *)
Definition unpack_f (b : list Z) : outcome float32 :=
  match b with
  | [b0; b1; b2; b3] =>
      Ret (f32_of_bits (Z.lor (Z.shiftl b0 24)
                         (Z.lor (Z.shiftl b1 16) (Z.lor (Z.shiftl b2 8) b3))))
  | _ => Exn StructError
  end.

End Struct.

(** The real number a finite binary32 datum denotes, as the pair of an
    integer significand and a binary exponent: the value is
    [m * 2 ^ e].  Infinities and NaNs denote no number. *)
Definition f32_decompose (x : float32) : option (Z * Z) :=
  if f32_exponent x =? 255 then None
  else
    let m := if f32_exponent x =? 0 then f32_fraction x
             else 2 ^ 23 + f32_fraction x in
    let e := if f32_exponent x =? 0 then -149 else f32_exponent x - 150 in
    Some (if f32_sign x then - m else m, e).

Definition f32_is_nan (x : float32) : bool :=
  (f32_exponent x =? 255) && negb (f32_fraction x =? 0).

(** The 64 bits of the Python [float] that equals the binary32 datum
    [x]: [struct.pack(">d", x)] as a 64-bit word.  A subnormal binary32
    number is a normal binary64 number. *)
Definition float_bits (x : float32) : Z :=
  (if f32_sign x then 2 ^ 63 else 0)
  + (if f32_exponent x =? 255 then 2047 * 2 ^ 52 + f32_fraction x * 2 ^ 29
     else if f32_exponent x =? 0 then
       if f32_fraction x =? 0 then 0
       else
         let k := Z.log2 (f32_fraction x) in
         (k + 874) * 2 ^ 52 + (f32_fraction x - 2 ^ k) * 2 ^ (52 - k)
     else (f32_exponent x + 896) * 2 ^ 52 + f32_fraction x * 2 ^ 29).

(** The exponent and fraction fields of that 64-bit word. *)
Definition f64_fields (x : float32) : Z * Z :=
  if f32_exponent x =? 255 then (2047, f32_fraction x * 2 ^ 29)
  else if f32_exponent x =? 0 then
    if f32_fraction x =? 0 then (0, 0)
    else
      let k := Z.log2 (f32_fraction x) in
      (k + 874, (f32_fraction x - 2 ^ k) * 2 ^ (52 - k))
  else (f32_exponent x + 896, f32_fraction x * 2 ^ 29).

(** The fields of a datum read from a 32-bit word are within their
    widths. *)
Definition f32_wf (x : float32) : Prop :=
  0 <= f32_exponent x < 256 /\ 0 <= f32_fraction x < 2 ^ 23.

(** The Python [float] (binary64) that [struct.unpack] hands back for a
    binary32 datum: the same number, widened; the widening is exact. *)
Definition f32_to_float (x : float32) : float :=
  match f32_decompose x with
  | Some (m, e) =>
      if m =? 0 then (if f32_sign x then neg_zero else zero)
      else
        let a := Z.ldexp (of_uint63 (Uint63.of_Z (Z.abs m))) e in
        if f32_sign x then PrimFloat.opp a else a
  | None =>
      if f32_fraction x =? 0 then
        (if f32_sign x then neg_infinity else infinity)
      else nan
  end.

(** The number that a 64-bit word encodes in binary64. *)
Definition f64_to_spec (w : Z) : spec_float :=
  let s := Z.testbit w 63 in
  let e := Z.land (Z.shiftr w 52) 2047 in
  let f := Z.land w (2 ^ 52 - 1) in
  if e =? 2047 then (if f =? 0 then S754_infinity s else S754_nan)
  else if e =? 0 then
    (if f =? 0 then S754_zero s else S754_finite s (Z.to_pos f) (-1074))
  else S754_finite s (Z.to_pos (2 ^ 52 + f)) (e - 1075).

Definition spec_eqb (x y : spec_float) : bool :=
  match x, y with
  | S754_zero s, S754_zero s' => Bool.eqb s s'
  | S754_infinity s, S754_infinity s' => Bool.eqb s s'
  | S754_nan, S754_nan => true
  | S754_finite s m e, S754_finite s' m' e' =>
      Bool.eqb s s' && (m =? m')%positive && (e =? e')
  | _, _ => false
  end.

(** 32-bit words with every exponent field, both signs, and sixteen
    fractions each. *)
Definition f32_samples : list Z :=
  flat_map (fun e =>
    flat_map (fun f => [e * 2 ^ 23 + f; 2 ^ 31 + e * 2 ^ 23 + f])
      [0; 1; 2; 3; 5; 8; 1024; 4096; 12345; 65536; 4781507;
       2 ^ 22 - 1; 2 ^ 22; 2 ^ 22 + 1; 2 ^ 23 - 2; 2 ^ 23 - 1])
    (map Z.of_nat (seq 0 256)).

(** ** Register model *)

Module RegItem.

Record t : Type := Make {
  offset : Z;
  name : string;
  unit : string;
  fc : Z;          (* 4 = input, 3 = holding *)
  dtype : string;
  count : Z;       (* float32 = 2 registers *)
  scale : float
}.

(** The constructor with the dataclass defaults [dtype = "float32"],
    [count = 2], [scale = 1.0]. *)
Definition make (offset : Z) (name unit : string) (fc : Z) : t :=
  Make offset name unit fc "float32" 2 1%float.

(** The [address] property: computed on every access. *)
Definition address (self : t) : Z := offset self - 1.

(** Assignment to the [offset] attribute. *)
Definition set_offset (self : t) (o : Z) : t :=
  Make o (name self) (unit self) (fc self) (dtype self) (count self) (scale self).

End RegItem.

(** ** Helpers *)

(** [decode_float32(regs, swap_words)].  [regs] is [None] or a list of
    integers; the result is [None] or the decoded number, kept as the
    binary32 datum that [struct.unpack] reads ([f32_to_float] is the
    Python [float] it becomes). *)
Definition decode_float32 (regs : option (list Z)) (swap_words : bool)
  : outcome (option float32) :=
  match regs with
  | None => Ret None
  | Some regs =>
      if (Z.of_nat (length regs) <? 2) then Ret None
      else
        match regs !! 0%nat, regs !! 1%nat with
        | Some r0, Some r1 =>
            let hi := Z.land r0 65535 in
            let lo := Z.land r1 65535 in
            let '(hi, lo) := if swap_words then (lo, hi) else (hi, lo) in
            let raw := Z.lor (Z.shiftl hi 16) lo in
            match Struct.pack_I raw with
            | Ret b =>
                match Struct.unpack_f b with
                | Ret x => Ret (Some x)
                | Exn e => Exn e
                end
            | Exn e => Exn e
            end
        | _, _ => Exn IndexError
        end
  end.

(** The 32-bit word that [decode_float32] reassembles from two registers. *)
Definition reassemble (r0 r1 : Z) (swap_words : bool) : Z :=
  let hi := Z.land r0 65535 in
  let lo := Z.land r1 65535 in
  let '(hi, lo) := if swap_words then (lo, hi) else (hi, lo) in
  Z.lor (Z.shiftl hi 16) lo.

(** ** Collaborators of the application object *)

(** What a register read hands back: a response object whose [isError()]
    is true (a device exception reply, a timeout, a line error), or a
    response carrying the register words. *)
Inductive reply : Type :=
  | ErrorReply (repr : string)
  | Registers (registers : option (list Z)).

Definition isError (rr : reply) : bool :=
  match rr with ErrorReply _ => true | Registers _ => false end.

Definition reply_registers (rr : reply) : option (list Z) :=
  match rr with ErrorReply _ => None | Registers r => r end.

Definition reply_str (rr : reply) : string :=
  match rr with ErrorReply s => s | Registers _ => "ReadRegistersResponse" end.

(** The interface of [pymodbus.client.ModbusSerialClient] that the program
    uses.  [C] is the state of a client object together with the line and
    the device behind it; every call may change it.  The constructor takes
    the port, the baud rate and the parity (stop bits 1, byte size 8 and
    timeout 1.0 are fixed by the caller). *)
Class ModbusSerialClient (C : Type) : Type := {
  new_client : string -> Z -> string -> C;
  connect : C -> bool * C;
  read_holding_registers : C -> Z -> Z -> Z -> outcome reply * C;
  read_input_registers : C -> Z -> Z -> Z -> outcome reply * C;
  close : C -> outcome () * C
}.

(** The text placed in the VALUE column.  [Formatted x] stands for
    [f"{x:.4f}"]. *)
Inductive val_txt : Type :=
  | ERR
  | EXC
  | NA
  | Formatted (x : float).

Inductive btn_state : Type := Normal | Disabled.

(** Calls made on collaborators, in the order they are made. *)
Inductive event : Type :=
  | ShowError (title message : string)
  | LogLine (s : string)
  | NewClient (port : string) (baudrate : Z) (parity : string)
  | Connect (ok : bool)
  | Close
  | ReadHolding (address count slave : Z) (result : outcome reply)
  | ReadInput (address count slave : Z) (result : outcome reply)
  | After (idx : nat) (v : val_txt)
  | ThreadStart
  | Sleep (ms : Z).  (* [time.sleep(ms / 1000.0)] is reached *)

Definition is_thread_start (e : event) : bool :=
  match e with ThreadStart => true | _ => false end.

Definition exn_str (e : exn) : string :=
  match e with
  | ValueError m => m
  | IndexError => "list index out of range"
  | StructError => "argument out of range"
  | AttributeError => "'NoneType' object has no attribute"
  | OverflowError => "timestamp too large to convert to C _PyTime_t"
  | ClientError m => m
  end.

(** ** The interpreter

    Two calls of the program give a result that depends on the Python
    that runs it and not on the program: [int(s)] for the text of an entry
    field, which reads the digits and skips the white space of every
    script, and [time.sleep(ms / 1000.0)] for an interval in
    milliseconds, which raises [OverflowError] when the interval is too
    large for the clock.  The program is modelled over any such pair:
    what is proved of it holds whatever [int] reads in a field and
    whichever intervals the sleep refuses. *)
Class Python : Type := {
  builtin_int : string -> outcome Z;
  time_sleep : Z -> outcome ()
}.

(** CPython 3.11 on a 64-bit platform, for entry fields holding ASCII
    text: [int] is [Py.int]; the sleep refuses a negative interval and
    an interval of 2^63 nanoseconds and more.  It is the interpreter of
    the runs on concrete fields below. *)
#[global] Instance cpython : Python := {|
  builtin_int := Py.int;
  time_sleep := fun ms =>
    if ms <? 0 then Exn (ValueError "sleep length must be non-negative")
    else if ms <? 9223372036855 then Ret ()
    else Exn OverflowError
|}.

(** ** The application object *)

Section App.

Context {C : Type} `{ModbusSerialClient C} `{Python}.

(** The fields of [EM6400NGApp] that the core reads and writes; the Tk
    variables are held by their current value.  [poll_thread] holds the
    thread last started, named by its rank among the threads this object
    has started. *)
Record App : Type := MkApp {
  client : option C;
  connected : bool;
  polling : bool;
  regs : list RegItem.t;
  port_var : string;
  baud_var : string;
  parity_var : string;
  slave_var : string;
  poll_ms_var : string;
  swap_words_var : bool;
  status_var : string;
  connect_btn : btn_state;
  disconnect_btn : btn_state;
  poll_thread : option nat
}.

Definition set_client (c : option C) (a : App) : App :=
  MkApp c (connected a) (polling a) (regs a) (port_var a) (baud_var a)
    (parity_var a) (slave_var a) (poll_ms_var a) (swap_words_var a)
    (status_var a) (connect_btn a) (disconnect_btn a) (poll_thread a).

Definition set_connected (b : bool) (a : App) : App :=
  MkApp (client a) b (polling a) (regs a) (port_var a) (baud_var a)
    (parity_var a) (slave_var a) (poll_ms_var a) (swap_words_var a)
    (status_var a) (connect_btn a) (disconnect_btn a) (poll_thread a).

Definition set_polling (b : bool) (a : App) : App :=
  MkApp (client a) (connected a) b (regs a) (port_var a) (baud_var a)
    (parity_var a) (slave_var a) (poll_ms_var a) (swap_words_var a)
    (status_var a) (connect_btn a) (disconnect_btn a) (poll_thread a).

Definition set_status_var (s : string) (a : App) : App :=
  MkApp (client a) (connected a) (polling a) (regs a) (port_var a) (baud_var a)
    (parity_var a) (slave_var a) (poll_ms_var a) (swap_words_var a)
    s (connect_btn a) (disconnect_btn a) (poll_thread a).

Definition set_poll_thread (t : option nat) (a : App) : App :=
  MkApp (client a) (connected a) (polling a) (regs a) (port_var a) (baud_var a)
    (parity_var a) (slave_var a) (poll_ms_var a) (swap_words_var a)
    (status_var a) (connect_btn a) (disconnect_btn a) t.

Definition set_buttons (c d : btn_state) (a : App) : App :=
  MkApp (client a) (connected a) (polling a) (regs a) (port_var a) (baud_var a)
    (parity_var a) (slave_var a) (poll_ms_var a) (swap_words_var a)
    (status_var a) c d (poll_thread a).

(** *** Methods as computations

    A method takes the object, and gives back its result or the
    exception it raised, the object as it left it, and the calls it
    made. *)
Definition M (A : Type) : Type := App -> outcome A * App * list event.

Definition ret {A} (a : A) : M A := fun self => (Ret a, self, []).

Definition raise {A} (e : exn) : M A := fun self => (Exn e, self, []).

Definition bind {A B} (m : M A) (k : A -> M B) : M B :=
  fun self =>
    match m self with
    | (Ret a, self', t) =>
        let '(r, self'', t') := k a self' in (r, self'', t ++ t')
    | (Exn e, self', t) => (Exn e, self', t)
    end.

(** [try: body  except Exception as e: handler e] *)
Definition try_except {A} (body : M A) (handler : exn -> M A) : M A :=
  fun self =>
    match body self with
    | (Ret a, self', t) => (Ret a, self', t)
    | (Exn e, self', t) =>
        let '(r, self'', t') := handler e self' in (r, self'', t ++ t')
    end.

Definition lift {A} (o : outcome A) : M A := fun self => (o, self, []).

Definition get : M App := fun self => (Ret self, self, []).

Definition modify (f : App -> App) : M () := fun self => (Ret (), f self, []).

Definition emit (e : event) : M () := fun self => (Ret (), self, [e]).

#[global] Instance M_ret : MRet M := @ret.
#[global] Instance M_bind : MBind M := fun A B k m => bind m k.

(** [messagebox.showerror] *)
Definition showerror (title message : string) : M () :=
  emit (ShowError title message).

(** [_log]: the line goes to the log view, or to standard output when
    the view refuses it; either way nothing is raised. *)
Definition _log (s : string) : M () := emit (LogLine s).

(** [self.after(0, self._set_tree_value, idx, val_txt)] *)
Definition after (idx : nat) (v : val_txt) : M () := emit (After idx v).

(** A read on [self.client]; with no client the attribute access
    raises. *)
Definition client_read (holding : bool) (address count slave : Z) : M reply :=
  fun self =>
    match client self with
    | None => (Exn AttributeError, self, [])
    | Some c =>
        let '(r, c') :=
          if holding then read_holding_registers c address count slave
          else read_input_registers c address count slave in
        (r, set_client (Some c') self,
         [if holding then ReadHolding address count slave r
          else ReadInput address count slave r])
    end.

(** [self.client.connect()] *)
Definition client_connect : M bool :=
  fun self =>
    match client self with
    | None => (Exn AttributeError, self, [])
    | Some c =>
        let '(ok, c') := connect c in
        (Ret ok, set_client (Some c') self, [Connect ok])
    end.

(** *** [_poll_once] *)

(** The body of the [for] loop, for one register. *)
Definition poll_register (slave : Z) (swap_words : bool)
    (idx : nat) (reg : RegItem.t) : M () :=
  try_except
    (rr ← client_read (RegItem.fc reg =? 3) (RegItem.address reg)
                       (RegItem.count reg) slave;
     v ← (if isError rr then
             _log (RegItem.name reg ++ ": " ++ reply_str rr);; ret ERR
           else
             v ← lift (decode_float32 (reply_registers rr) swap_words);
             ret (match v with
                  | None => NA
                  | Some v => Formatted (f32_to_float v * RegItem.scale reg)
                  end));
     after idx v)
    (fun e =>
       after idx EXC;;
       _log (RegItem.name reg ++ ": Exception " ++ exn_str e)).

(** [for idx, reg in enumerate(self.regs)], from index [idx] on. *)
Fixpoint poll_registers (slave : Z) (swap_words : bool)
    (idx : nat) (rs : list RegItem.t) : M () :=
  match rs with
  | [] => ret ()
  | reg :: rest =>
      poll_register slave swap_words idx reg;;
      poll_registers slave swap_words (S idx) rest
  end.

Definition _poll_once : M () :=
  self ← get;
  slave ← try_except (lift (builtin_int (slave_var self))) (fun _ => ret 1);
  let swap_words := swap_words_var self in
  poll_registers slave swap_words 0 (regs self).

(** *** [_poll_loop] *)

(** The [try] block at the head of the loop body: the delay, in
    milliseconds, for this turn of the loop. *)
Definition poll_ms_of (field : string) : Z :=
  match
    match builtin_int field with
    | Ret poll_ms => Ret (if poll_ms <? 200 then 200 else poll_ms)
    | Exn e => Exn e
    end
  with
  | Ret poll_ms => poll_ms
  | Exn _ => 1000
  end.

(** One turn of [while self.polling], entered with [self.polling] true.
    The call [time.sleep(poll_ms / 1000.0)] is recorded with its argument
    in milliseconds; it is outside the [try], so what it raises leaves
    the loop. *)
Definition poll_loop_body : M Z :=
  self ← get;
  let poll_ms := poll_ms_of (poll_ms_var self) in
  (if connected self && bool_decide (is_Some (client self))
   then _poll_once else ret ());;
  emit (Sleep poll_ms);;
  lift (time_sleep poll_ms);;
  ret poll_ms.

(** [_poll_loop], run alone for at most [turns] turns of the loop. *)
Fixpoint _poll_loop (turns : nat) : M () :=
  match turns with
  | O => ret ()
  | S n =>
      self ← get;
      if polling self then poll_loop_body;; _poll_loop n else ret ()
  end.

(** *** [_connect] *)

Definition valid_parity (parity : string) : bool :=
  bool_decide (parity ∈ ["E"; "O"; "N"]).

Definition _connect : M () :=
  self ← get;
  if connected self then ret ()
  else
    let port := Py.strip (port_var self) in
    if bool_decide (port = "") then
      showerror "Error" "Select a serial port."
    else
      settings ←
        try_except
          (baud ← lift (builtin_int (baud_var self));
           slave ← lift (builtin_int (slave_var self));
           if negb ((1 <=? slave) && (slave <=? 247)) then
             raise (ValueError "Slave ID must be 1..247")
           else ret (Some (baud, slave)))
          (fun e =>
             showerror "Error" ("Invalid settings: " ++ exn_str e);;
             ret None);
      match settings with
      | None => ret ()
      | Some (baud, slave) =>
          let parity := Py.upper (Py.strip (parity_var self)) in
          if negb (valid_parity parity) then
            showerror "Error" "Parity must be E, O, or N."
          else
            modify (set_client (Some (new_client port baud parity)));;
            emit (NewClient port baud parity);;
            ok ← client_connect;
            if negb ok then
              modify (set_client None);;
              showerror "Error"
                "Failed to open port. Check USB-RS485 driver/port."
            else
              modify (set_connected true);;
              modify (set_buttons Disabled Normal);;
              modify (set_status_var
                        ("Connected: " ++ port ++ "  " ++ pretty baud ++
                         "  8" ++ parity ++ "1  Slave " ++ pretty slave));;
              _log "Connected OK.";;
              modify (set_polling true);;
              modify (fun self =>
                        set_poll_thread
                          (Some (match poll_thread self with
                                 | Some n => S n
                                 | None => O
                                 end)) self);;
              emit ThreadStart
      end.

(** The settings that [_connect] refuses: a baud rate or a slave id that
    does not parse, a slave id outside 1..247, or a parity that, trimmed
    and upper-cased, is not E, O or N. *)
Definition settings_refused (a : App) : Prop :=
  raises (builtin_int (baud_var a)) = true \/
  raises (builtin_int (slave_var a)) = true \/
  (exists n, builtin_int (slave_var a) = Ret n /\ ~ 1 <= n <= 247) \/
  Py.upper (Py.strip (parity_var a)) ∉ ["E"; "O"; "N"].

(** *** [_disconnect] *)

(** The part before [time.sleep(0.1)]; that sleep, of a tenth of a
    second, always returns. *)
Definition disconnect_signal : M () := modify (set_polling false).

(** The part after [time.sleep(0.1)]. *)
Definition disconnect_close : M () :=
  self ← get;
  match client self with
  | Some c =>
      let '(_, c') := close c in
      modify (set_client (Some c'));; emit Close
  | None => ret ()
  end;;
  modify (set_client None);;
  modify (set_connected false);;
  modify (set_buttons Normal Disabled);;
  modify (set_status_var "Not connected");;
  _log "Disconnected.".

Definition _disconnect : M () :=
  disconnect_signal;; emit (Sleep 100);; disconnect_close.

End App.

Arguments App C : clear implicits.
Arguments M C A : clear implicits.

(** ** What the presentation layer is told *)

(** The status of a published reading, as the specification names it:
    ["ERR"] and ["EXC"] report a read that failed, ["N/A"] a reply that
    could not be decoded, a formatted number a good reading. *)
Inductive status : Type := Ok | TransportError | DecodeError.

Definition status_of (v : val_txt) : status :=
  match v with
  | ERR | EXC => TransportError
  | NA => DecodeError
  | Formatted _ => Ok
  end.

(** The [after] callbacks in a trace: the published results. *)
Fixpoint published (t : list event) : list (nat * val_txt) :=
  match t with
  | [] => []
  | After idx v :: t' => (idx, v) :: published t'
  | _ :: t' => published t'
  end.

(** The results of the register reads made in a trace. *)
Fixpoint reads (t : list event) : list (outcome reply) :=
  match t with
  | [] => []
  | ReadHolding _ _ _ r :: t' => r :: reads t'
  | ReadInput _ _ _ r :: t' => r :: reads t'
  | _ :: t' => reads t'
  end.

(** The slave ids the register reads of a trace were addressed to. *)
Fixpoint read_slaves (t : list event) : list Z :=
  match t with
  | [] => []
  | ReadHolding _ _ s _ :: t' => s :: read_slaves t'
  | ReadInput _ _ s _ :: t' => s :: read_slaves t'
  | _ :: t' => read_slaves t'
  end.

(** A read fails when the call raises or its response is an error. *)
Definition read_failed (r : outcome reply) : bool :=
  match r with
  | Exn _ => true
  | Ret rr => isError rr
  end.

(** ** The polling thread next to the main thread

    Time is counted in milliseconds.  A polling thread is asleep until
    some instant, or inside a cycle, or has left [_poll_loop].  When its
    sleep is over it is back at the [while self.polling] test: with the
    flag set it runs one turn of the loop on the shared object and sleeps
    again, otherwise it leaves.  A turn that starts takes no time here (a
    device that answers at once).  A thread caught inside a cycle, which
    is where a slow device keeps it, is [Reading]: it holds the delay,
    the slave id and the word-swap flag it read at the head of the turn
    and the index of the register it is about to read; it reads one
    register per millisecond and never looks at [self.polling] before the
    cycle and the sleep after it are over. *)

Inductive thread : Type :=
  | Sleeping (wake : Z)
  | Reading (poll_ms slave : Z) (swap_words : bool) (idx : nat)
  | Exited.

Definition alive (th : thread) : bool :=
  match th with Sleeping _ | Reading _ _ _ _ => true | Exited => false end.

Definition in_cycle (th : thread) : bool :=
  match th with Reading _ _ _ _ => true | _ => false end.

Section Threads.

Context {C : Type} `{ModbusSerialClient C} `{Python}.

Record system : Type := MkSystem {
  app : App C;
  now : Z;
  pollers : list thread;
  history : list event
}.

(** A polling thread, looked at at instant [t]. *)
Definition run_poller (t : Z) (a : App C) (th : thread)
  : App C * thread * list event :=
  match th with
  | Exited => (a, Exited, [])
  | Sleeping wake =>
      if wake <=? t then
        if polling a then
          match poll_loop_body a with
          | (Ret poll_ms, a', tr) => (a', Sleeping (t + poll_ms), tr)
          | (Exn _, a', tr) => (a', Exited, tr)
          end
        else (a, Exited, [])
      else (a, th, [])
  | Reading poll_ms slave swap_words idx =>
      match regs a !! idx with
      | Some reg =>
          match poll_register slave swap_words idx reg a with
          | (Ret _, a', tr) => (a', Reading poll_ms slave swap_words (S idx), tr)
          | (Exn _, a', tr) => (a', Exited, tr)
          end
      | None =>
          match time_sleep poll_ms with
          | Ret _ => (a, Sleeping (t + poll_ms), [Sleep poll_ms])
          | Exn _ => (a, Exited, [Sleep poll_ms])
          end
      end
  end.

Fixpoint run_pollers (t : Z) (a : App C) (ths : list thread)
  : App C * list thread * list event :=
  match ths with
  | [] => (a, [], [])
  | th :: rest =>
      let '(a', th', tr) := run_poller t a th in
      let '(a'', rest', tr') := run_pollers t a' rest in
      (a'', th' :: rest', tr ++ tr')
  end.

(** One millisecond goes by. *)
Definition tick (s : system) : system :=
  let t := now s + 1 in
  let '(a, ths, tr) := run_pollers t (app s) (pollers s) in
  MkSystem a t ths (history s ++ tr).

Fixpoint advance (ms : nat) (s : system) : system :=
  match ms with
  | O => s
  | S n => advance n (tick s)
  end.

(** The main thread runs a method to its end. *)
Definition main_runs {A} (m : M C A) (s : system) : system :=
  let '(_, a, tr) := m (app s) in
  MkSystem a (now s) (pollers s) (history s ++ tr).

(** The Connect button: [_connect], and the thread it may start. *)
Definition press_connect (s : system) : system :=
  let '(_, a, tr) := _connect (app s) in
  MkSystem a (now s)
    (pollers s ++ (if existsb is_thread_start tr then [Sleeping (now s)] else []))
    (history s ++ tr).

(** The Disconnect button: [_disconnect], with the other threads running
    during its [time.sleep(0.1)]. *)
Definition press_disconnect (s : system) : system :=
  main_runs disconnect_close (advance 100 (main_runs disconnect_signal s)).

Definition live_pollers (s : system) : nat :=
  length (filter (fun th => alive th = true) (pollers s)).

End Threads.

Arguments system C : clear implicits.

(** ** A simulated transport

    A port that opens or not, and a device given by what it answers at
    each wire address; an address it does not know is answered by an
    exception response. *)

Record SimClient : Type := MkSim {
  sim_opens : bool;
  sim_device : gmap Z (outcome reply)
}.

Definition sim_read (c : SimClient) (address count slave : Z)
  : outcome reply * SimClient :=
  (default (Ret (ErrorReply "Exception Response(illegal data address)"))
     (sim_device c !! address), c).

Definition sim_client (opens : bool) (device : gmap Z (outcome reply))
  : ModbusSerialClient SimClient :=
  {| new_client := fun _ _ _ => MkSim opens device;
     connect := fun c => (sim_opens c, c);
     read_holding_registers := sim_read;
     read_input_registers := sim_read;
     close := fun c => (Ret (), c) |}.

(** The application object as [__init__] leaves it, for a given register
    list and given contents of the entry fields. *)
Definition init_app {C : Type} (rs : list RegItem.t)
    (port baud parity slave poll_ms : string) (swap_words : bool) : App C :=
  MkApp None false false rs port baud parity slave poll_ms swap_words
    "Not connected" Normal Disabled None.

(** ** Reading traces *)

Fixpoint count {A : Type} (f : A -> bool) (l : list A) : nat :=
  match l with
  | [] => 0
  | x :: l' => (if f x then 1 else 0) + count f l'
  end.

Definition is_transport_error (v : val_txt) : bool :=
  match status_of v with TransportError => true | _ => false end.

Definition is_show_error (e : event) : bool :=
  match e with ShowError _ _ => true | _ => false end.

(** The slave id a cycle uses: the [try] block at the head of
    [_poll_once]. *)
Definition slave_of `{Python} (field : string) : Z :=
  match builtin_int field with Ret n => n | Exn _ => 1 end.

(** The number a finite binary32 datum denotes. *)
Definition f32_value (x : float32) : option Q :=
  match f32_decompose x with
  | Some (m, e) =>
      Some (if 0 <=? e then inject_Z (m * 2 ^ e)
            else Qmake m (Z.to_pos (2 ^ (- e))))
  | None => None
  end.

(** [v] is [t] up to [tol]. *)
Definition within (tol v t : Q) : Prop := (Qabs (v - t) <= tol)%Q.

(** ** The configuration the program ships with *)

(** The choices of the read-only baud selector. *)
Definition baud_values : list string := ["4800"; "9600"; "19200"; "38400"].

Definition DEFAULT_REGS : list RegItem.t :=
  [ RegItem.make 2699 "Active energy delivered (into load)" "kWh" 3;
    RegItem.make 2701 "Active energy received (out of load)" "kWh" 3;
    RegItem.make 2703 "Active energy delivered + received" "kWh" 3;
    RegItem.make 2999 "Current A" "A" 4;
    RegItem.make 3001 "Current B" "A" 4;
    RegItem.make 3003 "Current C" "A" 4;
    RegItem.make 3009 "Current avg" "A" 4;
    RegItem.make 3019 "Voltage A B" "V" 4;
    RegItem.make 3021 "Voltage B C" "V" 4;
    RegItem.make 3023 "Voltage C A" "V" 4;
    RegItem.make 3025 "Voltage L L avg" "V" 4;
    RegItem.make 3053 "Active power A" "kW" 4;
    RegItem.make 3055 "Active power B" "kW" 4;
    RegItem.make 3057 "Active power C" "kW" 4;
    RegItem.make 3059 "Active power total" "kW" 4;
    RegItem.make 3061 "Reactive power A" "kVAR" 4;
    RegItem.make 3063 "Reactive power B" "kVAR" 4;
    RegItem.make 3065 "Reactive power C" "kVAR" 4;
    RegItem.make 3067 "Reactive power total" "kVAR" 4;
    RegItem.make 3069 "Apparent power A" "kVA" 4;
    RegItem.make 3071 "Apparent power B" "kVA" 4;
    RegItem.make 3073 "Apparent power C" "kVA" 4;
    RegItem.make 3075 "Apparent power total" "kVA" 4 ].

(** ** Scenarios *)

(** A meter that answers every register of [DEFAULT_REGS] with the words
    [0x4248, 0xF5C3], except "Current B", which it does not know. *)
Definition meter : gmap Z (outcome reply) :=
  delete 3000
    (list_to_map
       (map (fun r => (RegItem.address r,
                       Ret (Registers (Some [0x4248; 0xF5C3]))))
            DEFAULT_REGS)).

(** The same meter on a line where the read of "Voltage A B" times out
    inside the client, and "Current B" is known. *)
Definition meter_timeout : gmap Z (outcome reply) :=
  <[3018 := Exn (ClientError "No response received")]>
    (<[3000 := Ret (Registers (Some [0x4248; 0xF5C3]))]> meter).

(** A session that [_connect] has opened on a simulated device. *)
Definition running_app (device : gmap Z (outcome reply)) (rs : list RegItem.t)
    (slave poll_ms : string) : App SimClient :=
  set_polling true
    (set_connected true
       (set_client (Some (MkSim true device))
          (init_app rs "COM3" "19200" "E" slave poll_ms false))).

(** The single register of the specification's scenario. *)
Definition power_total : RegItem.t :=
  RegItem.make 3053 "Active power total" "kW" 4.

(** The application at start-up, in front of the simulated meter. *)
Definition idle_system : system SimClient :=
  MkSystem (init_app DEFAULT_REGS "COM3" "19200" "E" "1" "1000" false) 0 [] [].

(** ** More built-ins: case, substrings, [repr] *)

Module PyStr.

Definition lower_char (c : ascii) : ascii :=
  let n := nat_of_ascii c in
  if (65 <=? n)%nat && (n <=? 90)%nat then ascii_of_nat (n + 32) else c.

Fixpoint lower (s : string) : string :=
  match s with
  | EmptyString => EmptyString
  | String c s' => String (lower_char c) (lower s')
  end.

(** [sub in s] for two strings. *)
Fixpoint contains (sub s : string) : bool :=
  String.prefix sub s
  || match s with
     | EmptyString => false
     | String _ s' => contains sub s'
     end.

Definition quote : ascii := ascii_of_nat 39.
Definition dquote : ascii := ascii_of_nat 34.
Definition backslash : ascii := ascii_of_nat 92.

Definition hex_digit (n : nat) : ascii :=
  if (n <? 10)%nat then ascii_of_nat (48 + n) else ascii_of_nat (87 + n).

(** One character inside [repr(s)], for the quote character [q] in use. *)
Definition repr_char (q c : ascii) : string :=
  let n := nat_of_ascii c in
  if Ascii.eqb c backslash then String backslash (String backslash EmptyString)
  else if Ascii.eqb c q then String backslash (String q EmptyString)
  else if (n =? 10)%nat then String backslash "n"
  else if (n =? 13)%nat then String backslash "r"
  else if (n =? 9)%nat then String backslash "t"
  else if (n <? 32)%nat || (n =? 127)%nat then
    String backslash
      (String "x" (String (hex_digit (n / 16)) (String (hex_digit (n mod 16)) EmptyString)))
  else String c EmptyString.

Fixpoint repr_chars (q : ascii) (s : string) : string :=
  match s with
  | EmptyString => EmptyString
  | String c s' => repr_char q c ++ repr_chars q s'
  end.

(** [repr(s)]: single quotes, unless the string has a single quote and
    no double quote. *)
Definition repr (s : string) : string :=
  let q :=
    if contains (String quote EmptyString) s
       && negb (contains (String dquote EmptyString) s)
    then dquote else quote in
  String q (repr_chars q s ++ String q EmptyString).

Fixpoint join (sep : string) (l : list string) : string :=
  match l with
  | [] => EmptyString
  | [x] => x
  | x :: l' => x ++ sep ++ join sep l'
  end.

(** [str(l)] for a list of strings. *)
Definition str_list (l : list string) : string :=
  "[" ++ join ", " (map repr l) ++ "]".

End PyStr.

(** ** Serial ports *)

Definition is_noise (p : string) : bool :=
  let s := PyStr.lower p in
  PyStr.contains "bluetooth" s || PyStr.contains "debug-console" s
  || PyStr.contains "internalmodem" s.

Definition is_usb (p : string) : bool :=
  let s := PyStr.lower p in
  PyStr.contains "usbserial" s || PyStr.contains "usbmodem" s
  || PyStr.contains "wchusbserial" s || PyStr.contains "slab_usbto" s.

(** [list_serial_ports_preferred], given the device names that
    [list_ports.comports()] enumerates. *)
Definition list_serial_ports_preferred (ports : list string) : list string :=
  let usb := List.filter is_usb ports in
  let other :=
    List.filter (fun p => negb (bool_decide (p ∈ usb)) && negb (is_noise p)) ports in
  let noise := List.filter is_noise ports in
  usb ++ other ++ noise.

(** ** The table of live values *)

(** One line of the table: the columns NAME, FC, OFFSET, ADDRESS, UNIT
    and VALUE; an empty VALUE cell is [None]. *)
Record row : Type := MkRow {
  row_name : string;
  row_fc : Z;
  row_offset : Z;
  row_address : Z;
  row_unit : string;
  row_value : option val_txt
}.

(** A [ttk.Treeview] with a flat list of items: the item ids with their
    lines, in display order.  Item ids are unique. *)
Definition tree : Type := list (string * row).

Module Tree.

(** [tree.exists(iid)] *)
Definition exists_ (iid : string) (t : tree) : bool :=
  existsb (fun item => String.eqb (fst item) iid) t.

(** [tree.insert("", END, iid=iid, values=...)]: the item goes last; an
    item id already in use is refused (a [TclError], here [None]). *)
Definition insert (iid : string) (r : row) (t : tree) : option tree :=
  if exists_ iid t then None else Some (t ++ [(iid, r)]).

Definition set_value (v : val_txt) (r : row) : row :=
  MkRow (row_name r) (row_fc r) (row_offset r) (row_address r) (row_unit r)
    (Some v).

(** [tree.set(iid, "value", v)]: an unknown item id is refused. *)
Definition set (iid : string) (v : val_txt) (t : tree) : option tree :=
  if exists_ iid t then
    Some (map (fun item =>
                 if String.eqb (fst item) iid
                 then (fst item, set_value v (snd item)) else item) t)
  else None.

End Tree.

(** The line [_render_regs] writes for a register. *)
Definition row_of (r : RegItem.t) : row :=
  MkRow (RegItem.name r) (RegItem.fc r) (RegItem.offset r)
    (RegItem.address r) (RegItem.unit r) None.

(** The table whose lines are [rows], with item ids [str(i)], [str(i+1)],
    and so on. *)
Fixpoint tree_from (i : nat) (rows : list row) : tree :=
  match rows with
  | [] => []
  | r :: rest => (pretty i, r) :: tree_from (S i) rest
  end.

(** The loop of [_render_regs], from index [i] on. *)
Fixpoint render_from (i : nat) (rs : list RegItem.t) (t : tree) : option tree :=
  match rs with
  | [] => Some t
  | r :: rest =>
      match Tree.insert (pretty i) (row_of r) t with
      | Some t' => render_from (S i) rest t'
      | None => None
      end
  end.

(** [_render_regs]: the table is emptied, then filled from [self.regs]. *)
Definition _render_regs (rs : list RegItem.t) (t : tree) : option tree :=
  render_from 0 rs [].

(** [_set_tree_value] *)
Definition _set_tree_value (idx : nat) (v : val_txt) (t : tree) : option tree :=
  let iid := pretty idx in
  if Tree.exists_ iid t then Tree.set iid v t else Some t.

(** The main loop runs the [after] callbacks in the order they were
    queued. *)
Fixpoint run_callbacks (cbs : list (nat * val_txt)) (t : tree) : option tree :=
  match cbs with
  | [] => Some t
  | (idx, v) :: rest =>
      match _set_tree_value idx v t with
      | Some t' => run_callbacks rest t'
      | None => None
      end
  end.

(** ** More of the application object *)

Section Ui.

Context {C : Type} `{ModbusSerialClient C} `{Python}.

Definition set_port_var (s : string) (a : App C) : App C :=
  MkApp (client a) (connected a) (polling a) (regs a) s (baud_var a)
    (parity_var a) (slave_var a) (poll_ms_var a) (swap_words_var a)
    (status_var a) (connect_btn a) (disconnect_btn a) (poll_thread a).

(** [_refresh_ports], given what [list_ports.comports()] enumerates; the
    result is the list stored as the choices of the port selector. *)
Definition _refresh_ports (comports : list string) : M C (list string) :=
  let ports := list_serial_ports_preferred comports in
  self ← get;
  let current := port_var self in
  (if negb (bool_decide (current = "")) && bool_decide (current ∈ ports)
   then modify (set_port_var current)
   else match ports with
        | p0 :: _ => modify (set_port_var p0)
        | [] => ret ()
        end);;
  _log ("Ports: " ++ (match ports with
                      | [] => "No ports found"
                      | _ => PyStr.str_list ports
                      end));;
  ret ports.

(** [__init__], given what [list_ports.comports()] enumerates at
    start-up: the fields and the Tk variables get their initial values,
    the port selector is filled, the table is rendered and "Ready." is
    logged.  The result is the object, the table and the calls made. *)
Definition __init__ (comports : list string) : App C * option tree * list event :=
  let self := init_app DEFAULT_REGS "" "19200" "E" "1" "1000" false in
  let '(_, self, tr) := _refresh_ports comports self in
  let t := _render_regs (regs self) [] in
  let '(_, self, tr') := _log "Ready." self in
  (self, t, tr ++ tr').

(** The object after a successful [_connect] that got the client [c]. *)
Definition opened (a : App C) (c : C) (port : string) (baud : Z) (parity : string)
    (slave : Z) : App C :=
  set_poll_thread
    (Some (match poll_thread a with Some n => S n | None => O end))
    (set_polling true
       (set_status_var
          ("Connected: " ++ port ++ "  " ++ pretty baud ++ "  8" ++ parity
           ++ "1  Slave " ++ pretty slave)
          (set_buttons Disabled Normal
             (set_connected true (set_client (Some c) a))))).

(** What the user and the polling thread do to the object, one step at a
    time: a press on Connect, a press on Disconnect, a press on Refresh
    with the ports then enumerated, one turn of the polling loop. *)
Inductive action : Type :=
  | PressConnect
  | PressDisconnect
  | PressRefresh (comports : list string)
  | PollTurn.

Definition run_action (x : action) (a : App C) : App C * list event :=
  match x with
  | PressConnect => let '(_, a', tr) := _connect a in (a', tr)
  | PressDisconnect => let '(_, a', tr) := _disconnect a in (a', tr)
  | PressRefresh comports =>
      let '(_, a', tr) := _refresh_ports comports a in (a', tr)
  | PollTurn =>
      if polling a then let '(_, a', tr) := poll_loop_body a in (a', tr)
      else (a, [])
  end.

Fixpoint run_actions (xs : list action) (a : App C) : App C * list event :=
  match xs with
  | [] => (a, [])
  | x :: rest =>
      let '(a', tr) := run_action x a in
      let '(a'', tr') := run_actions rest a' in
      (a'', tr ++ tr')
  end.

(** The fields of the object agree with each other. *)
Definition consistent (a : App C) : Prop :=
  polling a = connected a /\
  (connected a = true <-> is_Some (client a)) /\
  connect_btn a = (if connected a then Disabled else Normal) /\
  disconnect_btn a = (if connected a then Normal else Disabled) /\
  (connected a = false -> status_var a = "Not connected").

End Ui.

(** ** More ways to read a trace *)

(** A register read as it goes on the wire. *)
Record request : Type := MkRequest {
  req_holding : bool;
  req_address : Z;
  req_count : Z;
  req_slave : Z
}.

Fixpoint requests (t : list event) : list request :=
  match t with
  | [] => []
  | ReadHolding a c s _ :: t' => MkRequest true a c s :: requests t'
  | ReadInput a c s _ :: t' => MkRequest false a c s :: requests t'
  | _ :: t' => requests t'
  end.

Fixpoint log_lines (t : list event) : list string :=
  match t with
  | [] => []
  | LogLine s :: t' => s :: log_lines t'
  | _ :: t' => log_lines t'
  end.

Definition is_sleep (e : event) : bool :=
  match e with Sleep _ => true | _ => false end.

Definition is_close (e : event) : bool :=
  match e with Close => true | _ => false end.

(** The request [_poll_once] makes for a register. *)
Definition request_of (slave : Z) (reg : RegItem.t) : request :=
  MkRequest (RegItem.fc reg =? 3) (RegItem.address reg) (RegItem.count reg) slave.

(** The VALUE cell for a register, read off the result of its read. *)
Definition cell_of (swap_words : bool) (reg : RegItem.t) (r : outcome reply)
  : val_txt :=
  match r with
  | Exn _ => EXC
  | Ret (ErrorReply _) => ERR
  | Ret (Registers (Some (r0 :: r1 :: _))) =>
      Formatted (f32_to_float (Struct.f32_of_bits (reassemble r0 r1 swap_words))
                 * RegItem.scale reg)
  | Ret (Registers _) => NA
  end.

(** The log line for a register whose read failed. *)
Definition log_of (reg : RegItem.t) (r : outcome reply) : list string :=
  match r with
  | Exn e => [(RegItem.name reg ++ ": Exception " ++ exn_str e)%string]
  | Ret (ErrorReply s) => [(RegItem.name reg ++ ": " ++ s)%string]
  | Ret (Registers _) => []
  end.


(** * Properties of the decoder and of the register model *)

Section BitLemmas.

Lemma land_65535_range (a : Z) : 0 <= Z.land a 65535 < 65536.
Proof.
  change 65535 with (Z.ones 16). rewrite Z.land_ones by lia.
  apply Z.mod_pos_bound. lia.
Qed.

Lemma land_65535_mod (a : Z) : Z.land a 65535 = a mod 65536.
Proof. change 65535 with (Z.ones 16). now rewrite Z.land_ones by lia. Qed.

Lemma testbit_above (a n m : Z) :
  0 <= a < 2 ^ n -> 0 <= n <= m -> Z.testbit a m = false.
Proof.
  intros Ha Hn. destruct (Z.eq_dec a 0) as [->|Hne].
  - apply Z.bits_0.
  - apply Z.bits_above_log2; [lia|].
    assert (Z.log2 a < n) by (apply Z.log2_lt_pow2; lia). lia.
Qed.

Lemma lor_shiftl_16 (hi lo : Z) :
  0 <= lo < 65536 -> Z.lor (Z.shiftl hi 16) lo = hi * 65536 + lo.
Proof.
  intros Hlo. rewrite Z.shiftl_mul_pow2 by lia. change (2 ^ 16) with 65536.
  rewrite <- Z.lxor_lor, <- Z.add_nocarry_lxor; try reflexivity.
  all: apply Z.bits_inj'; intros n Hn; rewrite Z.land_spec, Z.bits_0.
  all: destruct (Z.lt_ge_cases n 16) as [Hlt|Hge].
  all: try (change 65536 with (2 ^ 16); rewrite Z.mul_pow2_bits_low by lia;
            reflexivity).
  all: rewrite (testbit_above lo 16 n) by (change (2 ^ 16) with 65536; lia).
  all: apply andb_false_r.
Qed.

Lemma reassemble_value (r0 r1 : Z) (swap_words : bool) :
  reassemble r0 r1 swap_words =
    if swap_words then (r1 mod 65536) * 65536 + r0 mod 65536
    else (r0 mod 65536) * 65536 + r1 mod 65536.
Proof.
  unfold reassemble.
  pose proof (land_65535_range r0). pose proof (land_65535_range r1).
  destruct swap_words; rewrite lor_shiftl_16 by lia;
    now rewrite !land_65535_mod.
Qed.

Lemma reassemble_range (r0 r1 : Z) (swap_words : bool) :
  0 <= reassemble r0 r1 swap_words < 2 ^ 32.
Proof.
  rewrite reassemble_value.
  pose proof (Z.mod_pos_bound r0 65536). pose proof (Z.mod_pos_bound r1 65536).
  change (2 ^ 32) with 4294967296. destruct swap_words; lia.
Qed.

Lemma testbit_byte (w k m : Z) :
  0 <= k -> 0 <= m ->
  Z.testbit (Z.land (Z.shiftr w k) 255) m = (m <? 8) && Z.testbit w (m + k).
Proof.
  intros Hk Hm. rewrite Z.land_spec, Z.shiftr_spec by lia.
  change 255 with (Z.ones 8). rewrite Z.testbit_ones_nonneg by lia.
  apply andb_comm.
Qed.

(** The four bytes written by [pack_I] are read back by [unpack_f] as
    the same 32-bit word. *)
Lemma bytes_compose (w : Z) :
  0 <= w < 2 ^ 32 ->
  Z.lor (Z.shiftl (Z.land (Z.shiftr w 24) 255) 24)
    (Z.lor (Z.shiftl (Z.land (Z.shiftr w 16) 255) 16)
       (Z.lor (Z.shiftl (Z.land (Z.shiftr w 8) 255) 8) (Z.land w 255))) = w.
Proof.
  intros Hw. apply Z.bits_inj'. intros n Hn.
  rewrite <- (Z.shiftr_0_r w) at 4.
  rewrite !Z.lor_spec.
  destruct (Z.lt_ge_cases n 8) as [H8|H8];
    [|destruct (Z.lt_ge_cases n 16) as [H16|H16];
      [|destruct (Z.lt_ge_cases n 24) as [H24|H24];
        [|destruct (Z.lt_ge_cases n 32) as [H32|H32]]]].
  all: repeat (rewrite Z.shiftl_spec_low by lia).
  all: repeat (rewrite Z.shiftl_spec by lia).
  all: repeat (rewrite testbit_byte by lia).
  all: repeat match goal with
         | |- context [?a <? 8] =>
             first [ replace (a <? 8) with true by (symmetry; apply Z.ltb_lt; lia)
                   | replace (a <? 8) with false by (symmetry; apply Z.ltb_ge; lia) ]
         end.
  all: cbn [andb orb]; rewrite ?orb_false_r.
  all: try (f_equal; lia).
  symmetry. apply (testbit_above w 32 n); lia.
Qed.

Lemma unpack_pack (w : Z) :
  0 <= w < 2 ^ 32 ->
  match Struct.pack_I w with
  | Ret b => Struct.unpack_f b
  | Exn e => Exn e
  end = Ret (Struct.f32_of_bits w).
Proof.
  intros Hw. unfold Struct.pack_I.
  replace ((0 <=? w) && (w <? 2 ^ 32)) with true
    by (symmetry; apply andb_true_iff; split; [apply Z.leb_le|apply Z.ltb_lt]; lia).
  unfold Struct.unpack_f. now rewrite bytes_compose.
Qed.

(** The fields of a word keep all its 32 bits. *)
Lemma f32_fields_roundtrip (w : Z) :
  0 <= w < 2 ^ 32 -> Struct.f32_to_bits (Struct.f32_fields w) = w.
Proof.
  intros Hw. unfold Struct.f32_to_bits, Struct.f32_fields. cbn [f32_sign f32_exponent f32_fraction].
  change 255 with (Z.ones 8). change 8388607 with (Z.ones 23).
  rewrite !Z.land_ones, Z.shiftr_div_pow2 by lia.
  assert (Hs : Z.testbit w 31 = (2 ^ 31 <=? w)).
  { rewrite Z.testbit_eqb by lia.
    change (2 ^ 32) with 4294967296 in Hw. change (2 ^ 31) with 2147483648.
    destruct (Z.leb_spec 2147483648 w); [apply Z.eqb_eq|apply Z.eqb_neq];
      Z.div_mod_to_equations; lia. }
  rewrite Hs. change (2 ^ 32) with 4294967296 in Hw.
  change (2 ^ 31) with 2147483648. change (2 ^ 23) with 8388608.
  change (2 ^ 8) with 256.
  destruct (Z.leb_spec 2147483648 w); Z.div_mod_to_equations; lia.
Qed.

(** What is read from a word and packed again is the word itself, but
    for a signalling NaN, which comes back quiet. *)
Lemma f32_bits_roundtrip (w : Z) :
  0 <= w < 2 ^ 32 ->
  Struct.f32_to_bits (Struct.f32_of_bits w)
    = if Struct.f32_is_signalling (Struct.f32_fields w) then w + 4194304 else w.
Proof.
  intros Hw. unfold Struct.f32_of_bits, Struct.f32_quiet.
  destruct (Struct.f32_is_signalling (Struct.f32_fields w)).
  - pose proof (f32_fields_roundtrip w Hw) as E.
    unfold Struct.f32_to_bits in *. cbn [f32_sign f32_exponent f32_fraction] in *.
    destruct (f32_sign (Struct.f32_fields w)); lia.
  - now apply f32_fields_roundtrip.
Qed.

Lemma float_bits_fields (x : float32) :
  float_bits x
  = (if f32_sign x then 2 ^ 63 else 0)
    + fst (f64_fields x) * 2 ^ 52 + snd (f64_fields x).
Proof.
  unfold float_bits, f64_fields.
  destruct (f32_exponent x =? 255); cbn [fst snd]; [lia|].
  destruct (f32_exponent x =? 0); cbn [fst snd]; [|lia].
  destruct (f32_fraction x =? 0); cbn [fst snd]; lia.
Qed.

(** A subnormal binary32 number is a normal binary64 number: its leading
    bit becomes the implicit one. *)
Lemma subnormal_fraction (f : Z) :
  0 < f < 2 ^ 23 ->
  0 <= Z.log2 f <= 22 /\
  0 <= (f - 2 ^ Z.log2 f) * 2 ^ (52 - Z.log2 f) < 2 ^ 52.
Proof.
  intros Hf. pose proof (Z.log2_spec f (proj1 Hf)) as [Hlo Hhi].
  assert (Hk : 0 <= Z.log2 f) by apply Z.log2_nonneg.
  assert (Hk' : Z.log2 f < 23) by (apply Z.log2_lt_pow2; lia).
  split; [lia|].
  rewrite Z.pow_succ_r in Hhi by lia.
  assert (Hp : 0 < 2 ^ (52 - Z.log2 f)) by (apply Z.pow_pos_nonneg; lia).
  assert (E : 2 ^ 52 = 2 ^ Z.log2 f * 2 ^ (52 - Z.log2 f)).
  { rewrite <- Z.pow_add_r by lia. f_equal. lia. }
  rewrite E. split; [apply Z.mul_nonneg_nonneg; lia|].
  apply Z.mul_lt_mono_pos_r; lia.
Qed.

Lemma f64_fields_range (x : float32) :
  f32_wf x ->
  0 <= fst (f64_fields x) < 2048 /\ 0 <= snd (f64_fields x) < 2 ^ 52.
Proof.
  intros [He Hf]. unfold f64_fields.
  change (2 ^ 23) with 8388608 in Hf.
  destruct (Z.eqb_spec (f32_exponent x) 255); cbn [fst snd].
  { change (2 ^ 29) with 536870912. change (2 ^ 52) with 4503599627370496. lia. }
  destruct (Z.eqb_spec (f32_exponent x) 0); cbn [fst snd].
  2:{ change (2 ^ 29) with 536870912. change (2 ^ 52) with 4503599627370496. lia. }
  destruct (Z.eqb_spec (f32_fraction x) 0); cbn [fst snd].
  { change (2 ^ 52) with 4503599627370496. lia. }
  destruct (subnormal_fraction (f32_fraction x)) as [Hk Hm].
  { change (2 ^ 23) with 8388608. lia. }
  split; [lia|exact Hm].
Qed.

Lemma f64_fields_inj (x y : float32) :
  f32_wf x -> f32_wf y ->
  f64_fields x = f64_fields y ->
  f32_exponent x = f32_exponent y /\ f32_fraction x = f32_fraction y.
Proof.
  intros [Hex Hfx] [Hey Hfy]. unfold f64_fields.
  change (2 ^ 23) with 8388608 in *.
  assert (Hsub : forall f, 0 <= f < 8388608 -> f <> 0 ->
            0 <= Z.log2 f <= 22 /\
            0 <= (f - 2 ^ Z.log2 f) * 2 ^ (52 - Z.log2 f) < 2 ^ 52).
  { intros f Hf Hne. apply subnormal_fraction. change (2 ^ 23) with 8388608. lia. }
  destruct (Z.eqb_spec (f32_exponent x) 255) as [Hx1|Hx1];
    destruct (Z.eqb_spec (f32_exponent y) 255) as [Hy1|Hy1];
    [| |destruct (Z.eqb_spec (f32_exponent y) 0) as [Hy0|Hy0];
         [destruct (Z.eqb_spec (f32_fraction y) 0) as [Hyf|Hyf]|]|];
    try (destruct (Z.eqb_spec (f32_exponent x) 0) as [Hx0|Hx0];
         [destruct (Z.eqb_spec (f32_fraction x) 0) as [Hxf|Hxf]|]);
    try (destruct (Z.eqb_spec (f32_exponent y) 0) as [Hy0|Hy0];
         [destruct (Z.eqb_spec (f32_fraction y) 0) as [Hyf|Hyf]|]);
    intros E; pose proof (f_equal fst E) as E1; pose proof (f_equal snd E) as E2;
    cbn [fst snd] in E1, E2;
    try (pose proof (Hsub _ Hfx Hxf)); try (pose proof (Hsub _ Hfy Hyf));
    change (2 ^ 29) with 536870912 in *;
    try lia.
  split; [lia|].
  assert (Hk : Z.log2 (f32_fraction x) = Z.log2 (f32_fraction y)) by lia.
  rewrite Hk in E2.
  apply Z.mul_cancel_r in E2; [lia|].
  apply Z.pow_nonzero; lia.
Qed.

(** Two binary32 data that widen to the same 64 bits are the same. *)
Lemma float_bits_inj (x y : float32) :
  f32_wf x -> f32_wf y -> float_bits x = float_bits y -> x = y.
Proof.
  intros Hx Hy E. rewrite !float_bits_fields in E.
  pose proof (f64_fields_range x Hx) as [Hxe Hxm].
  pose proof (f64_fields_range y Hy) as [Hye Hym].
  change (2 ^ 52) with 4503599627370496 in *.
  change (2 ^ 63) with 9223372036854775808 in *.
  assert (Hs : f32_sign x = f32_sign y)
    by (destruct (f32_sign x), (f32_sign y); try reflexivity; lia).
  assert (Hf : f64_fields x = f64_fields y).
  { destruct (f64_fields x) as [ex mx], (f64_fields y) as [ey my]. cbn [fst snd] in *.
    rewrite Hs in E. f_equal; destruct (f32_sign y); lia. }
  destruct (f64_fields_inj x y Hx Hy Hf) as [He Hm].
  destruct x, y; cbn in *; congruence.
Qed.

Lemma f32_of_bits_wf (w : Z) : f32_wf (Struct.f32_of_bits w).
Proof.
  assert (Hw : f32_wf (Struct.f32_fields w)).
  { unfold f32_wf, Struct.f32_fields. cbn [f32_exponent f32_fraction].
    change 255 with (Z.ones 8). change 8388607 with (Z.ones 23).
    rewrite !Z.land_ones by lia. split; apply Z.mod_pos_bound; lia. }
  unfold Struct.f32_of_bits, Struct.f32_quiet, Struct.f32_is_signalling.
  destruct (f32_exponent (Struct.f32_fields w) =? 255); [|exact Hw].
  destruct (f32_fraction (Struct.f32_fields w) =? 0); [exact Hw|].
  destruct (Z.testbit (f32_fraction (Struct.f32_fields w)) 22) eqn:Hb; [exact Hw|].
  cbn [andb negb]. destruct Hw as [He Hf]. split; [exact He|].
  cbn [f32_exponent f32_fraction].
  rewrite Z.testbit_eqb in Hb by lia. apply Z.eqb_neq in Hb.
  change (2 ^ 23) with 8388608 in *. change (2 ^ 22) with 4194304 in Hb.
  Z.div_mod_to_equations; lia.
Qed.

(** The Python [float] decoded from a 32-bit word tells the word, unless
    the word is a signalling NaN. *)
Lemma float_bits_tells_word (p q : Z) :
  0 <= p < 2 ^ 32 -> 0 <= q < 2 ^ 32 ->
  Struct.f32_is_signalling (Struct.f32_fields p) = false ->
  Struct.f32_is_signalling (Struct.f32_fields q) = false ->
  float_bits (Struct.f32_of_bits p) = float_bits (Struct.f32_of_bits q) ->
  p = q.
Proof.
  intros Hp Hq Sp Sq E.
  apply float_bits_inj in E; try apply f32_of_bits_wf.
  pose proof (f32_bits_roundtrip p Hp) as Ep.
  pose proof (f32_bits_roundtrip q Hq) as Eq.
  rewrite Sp in Ep. rewrite Sq in Eq. rewrite <- Ep, <- Eq, E. reflexivity.
Qed.

End BitLemmas.

Lemma decode_float32_pair (r0 r1 : Z) (rest : list Z) (swap_words : bool) :
  decode_float32 (Some (r0 :: r1 :: rest)) swap_words =
    Ret (Some (Struct.f32_of_bits (reassemble r0 r1 swap_words))).
Proof.
  unfold decode_float32.
  replace (Z.of_nat (length (r0 :: r1 :: rest)) <? 2) with false
    by (symmetry; apply Z.ltb_ge; cbn [length]; lia).
  cbn [lookup list_lookup].
  pose proof (unpack_pack _ (reassemble_range r0 r1 swap_words)) as H.
  unfold reassemble in *.
  destruct swap_words; cbn beta iota zeta in *;
    (destruct (Struct.pack_I _); [now rewrite H | discriminate H]).
Qed.

Lemma decode_float32_short (regs : list Z) (swap_words : bool) :
  (length regs < 2)%nat -> decode_float32 (Some regs) swap_words = Ret None.
Proof.
  intros H. unfold decode_float32.
  now replace (Z.of_nat (length regs) <? 2) with true
    by (symmetry; apply Z.ltb_lt; lia).
Qed.

(** ** The built-ins on sample inputs *)

Lemma int_samples :
  Py.int "50" = Ret 50 /\ Py.int " 19200 " = Ret 19200 /\
  Py.int "+7" = Ret 7 /\ Py.int "-12" = Ret (-12) /\
  Py.int "1_000" = Ret 1000 /\ Py.int "007" = Ret 7 /\
  raises (Py.int "") = true /\ raises (Py.int "12a") = true /\
  raises (Py.int "1__0") = true /\ raises (Py.int "_1") = true /\
  raises (Py.int "1_") = true /\ raises (Py.int "- 1") = true /\
  raises (Py.int "50.0") = true /\ raises (Py.int "1 2") = true /\
  raises (Py.int (String (ascii_of_nat 28) "250")) = true /\
  Py.int (String (ascii_of_nat 9) "250") = Ret 250.
Proof. repeat split. Qed.

Lemma strip_upper_samples :
  Py.strip "  COM3 " = "COM3" /\ Py.strip "a b" = "a b" /\ Py.strip "   " = "" /\
  Py.upper (Py.strip " e ") = "E" /\ Py.upper "n1" = "N1".
Proof. repeat split. Qed.

(** The delay of a turn and the slave id of a cycle, under CPython, for
    some contents of the two entry fields: a field that starts with the
    file separator (character 28) is no number for [int], which skips
    only TAB..CR and the space. *)
Lemma field_samples :
  poll_ms_of "50" = 200 /\ poll_ms_of "199" = 200 /\ poll_ms_of "200" = 200 /\
  poll_ms_of " 250 " = 250 /\ poll_ms_of "-5" = 200 /\ poll_ms_of "" = 1000 /\
  poll_ms_of "2.5" = 1000 /\
  poll_ms_of (String (ascii_of_nat 28) "250") = 1000 /\
  slave_of "17" = 17 /\ slave_of "0" = 0 /\ slave_of "300" = 300 /\
  slave_of "x" = 1 /\ slave_of (String (ascii_of_nat 28) "5") = 1.
Proof. repeat split. Qed.

(** ** The register address *)

(** C4. For every register definition with offset at least 1 the wire
    address is the offset minus one and is a legal 0-based address; the
    address has no storage of its own: it is a function of the offset
    alone, and follows every assignment to the offset. *)
Theorem address_is_offset_minus_1 (r : RegItem.t) :
  1 <= RegItem.offset r ->
  RegItem.address r = RegItem.offset r - 1 /\
  0 <= RegItem.address r /\
  (forall r' : RegItem.t,
     RegItem.offset r' = RegItem.offset r ->
     RegItem.address r' = RegItem.address r) /\
  (forall o : Z, RegItem.address (RegItem.set_offset r o) = o - 1).
Proof.
  intros Hoff. unfold RegItem.address. repeat split.
  - lia.
  - intros r' ->. reflexivity.
Qed.

Lemma address_is_offset_minus_1_witness :
  let r := RegItem.make 3053 "Active power A" "kW" 4 in
  1 <= RegItem.offset r /\
  RegItem.address r = 3052 /\
  RegItem.address (RegItem.set_offset r 2699) = 2698.
Proof.
  intros r. assert (Hr : 1 <= RegItem.offset r) by (cbn; lia).
  destruct (address_is_offset_minus_1 r Hr) as (H1 & _ & _ & H4).
  split; [exact Hr|]. split; [exact H1 | exact (H4 2699)].
Defined.

(** ** The decoder *)

Lemma split_words (p : Z) :
  0 <= p < 2 ^ 32 ->
  reassemble (Z.shiftr p 16) (Z.land p 65535) false = p /\
  reassemble (Z.land p 65535) (Z.shiftr p 16) true = p.
Proof.
  intros Hp. rewrite !reassemble_value, land_65535_mod, Z.shiftr_div_pow2 by lia.
  change (2 ^ 16) with 65536. change (2 ^ 32) with 4294967296 in Hp.
  rewrite Z.mod_mod by lia.
  rewrite (Z.mod_small (p / 65536)) by (Z.div_mod_to_equations; lia).
  Z.div_mod_to_equations; lia.
Qed.

(** The words of the signalling NaN [0x7FA00001] decode to a number that
    packs as [0x7FE00001], not as the pattern they came from: it is the
    very number the words of [0x7FE00001] decode to, the Python [float]
    with bits [0x7FFC000020000000]. *)
Lemma decode_float32_quiets_signalling_nan :
  0 <= 0x7FA00001 < 2 ^ 32 /\
  Z.shiftr 0x7FA00001 16 = 0x7FA0 /\ Z.land 0x7FA00001 65535 = 0x0001 /\
  exists x,
    decode_float32 (Some [0x7FA0; 0x0001]) false = Ret (Some x) /\
    Struct.f32_to_bits x = 0x7FE00001 /\
    Struct.f32_to_bits x <> 0x7FA00001 /\
    float_bits x = 0x7FFC000020000000 /\
    decode_float32 (Some [0x7FE0; 0x0001]) false = Ret (Some x).
Proof.
  split; [change (2 ^ 32) with 4294967296; lia|].
  split; [reflexivity|]. split; [reflexivity|].
  exists (MkFloat32 false 255 6291457).
  split; [reflexivity|]. split; [reflexivity|]. split; [discriminate|].
  split; reflexivity.
Qed.

(** C2, as the code has it. Round trip: a 32-bit pattern split into its
    high and low 16-bit words decodes, without word swap, to the number
    [struct.unpack] reads from that pattern; with the two words exchanged
    and word swap on it decodes to the same number.  Packed again, the
    number gives back the pattern bit for bit, a quiet NaN with its
    payload included, unless the pattern is a signalling NaN: that one
    comes back with the top bit of its fraction set and the rest of its
    payload kept.  And the 64 bits of the Python [float] tell the pattern
    it was decoded from among the patterns that are not signalling
    NaNs. *)
Theorem decode_float32_roundtrip (p : Z) :
  0 <= p < 2 ^ 32 ->
  let hi := Z.shiftr p 16 in
  let lo := Z.land p 65535 in
  decode_float32 (Some [hi; lo]) false = Ret (Some (Struct.f32_of_bits p)) /\
  decode_float32 (Some [lo; hi]) true = Ret (Some (Struct.f32_of_bits p)) /\
  Struct.f32_to_bits (Struct.f32_of_bits p)
    = (if Struct.f32_is_signalling (Struct.f32_fields p)
       then p + 4194304 else p) /\
  (Struct.f32_is_signalling (Struct.f32_fields p) = false ->
   Struct.f32_to_bits (Struct.f32_of_bits p) = p /\
   forall q x,
     0 <= q < 2 ^ 32 ->
     Struct.f32_is_signalling (Struct.f32_fields q) = false ->
     decode_float32 (Some [Z.shiftr q 16; Z.land q 65535]) false = Ret (Some x) ->
     float_bits x = float_bits (Struct.f32_of_bits p) ->
     q = p).
Proof.
  intros Hp hi lo. destruct (split_words p Hp) as [H1 H2].
  rewrite !decode_float32_pair. subst hi lo. rewrite H1, H2.
  split; [reflexivity|]. split; [reflexivity|].
  pose proof (f32_bits_roundtrip p Hp) as Hb.
  split; [exact Hb|]. intros Hq. split; [now rewrite Hq in Hb|].
  intros q x Hq' Sq Eq Ebits.
  rewrite decode_float32_pair, (proj1 (split_words q Hq')) in Eq.
  injection Eq as <-. symmetry.
  now apply float_bits_tells_word.
Qed.

(** A quiet NaN with a payload, [0x7FC12345]. *)
Lemma decode_float32_roundtrip_witness :
  0 <= 0x7FC12345 < 2 ^ 32 /\
  decode_float32 (Some [0x7FC1; 0x2345]) false
    = Ret (Some (MkFloat32 false 255 4268869)) /\
  decode_float32 (Some [0x2345; 0x7FC1]) true
    = Ret (Some (MkFloat32 false 255 4268869)) /\
  Struct.f32_to_bits (MkFloat32 false 255 4268869) = 0x7FC12345 /\
  float_bits (MkFloat32 false 255 4268869) = 0x7FF82468A0000000.
Proof.
  assert (Hp : 0 <= 0x7FC12345 < 2 ^ 32) by (change (2 ^ 32) with 4294967296; lia).
  destruct (decode_float32_roundtrip 0x7FC12345 Hp) as (H1 & H2 & _ & H4).
  split; [exact Hp|]. split; [exact H1|]. split; [exact H2|].
  split; [exact (proj1 (H4 eq_refl))|reflexivity].
Defined.

(** The 64 bits of the Python [float], on a normal number, the two
    zeros, the smallest subnormal number with each sign, the largest
    subnormal number, an infinity and a quiet NaN. *)
Lemma float_bits_samples :
  float_bits (Struct.f32_of_bits 0x4248F5C3) = 0x40491EB860000000 /\
  float_bits (Struct.f32_of_bits 0x00000000) = 0x0000000000000000 /\
  float_bits (Struct.f32_of_bits 0x80000000) = 0x8000000000000000 /\
  float_bits (Struct.f32_of_bits 0x00000001) = 0x36A0000000000000 /\
  float_bits (Struct.f32_of_bits 0x80000001) = 0xB6A0000000000000 /\
  float_bits (Struct.f32_of_bits 0x007FFFFF) = 0x380FFFFFC0000000 /\
  float_bits (Struct.f32_of_bits 0xFF800000) = 0xFFF0000000000000 /\
  float_bits (Struct.f32_of_bits 0x7FC00000) = 0x7FF8000000000000.
Proof. repeat split. Qed.

(** The two readings of the decoded number agree: the value published,
    [f32_to_float], is the number that the 64 bits of [float_bits]
    encode, on each of the 8192 words of [f32_samples]. *)
Lemma float_bits_encode_value :
  Z.of_nat (length f32_samples) = 8192 /\
  forallb (fun w =>
             spec_eqb (Prim2SF (f32_to_float (Struct.f32_of_bits w)))
               (f64_to_spec (float_bits (Struct.f32_of_bits w))))
    f32_samples = true.
Proof. split; vm_compute; reflexivity. Qed.

(** A reply with three words is decoded from its first two. *)
Lemma decode_float32_three_words :
  length [0x4248; 0xF5C3; 0] <> 2%nat /\
  decode_float32 (Some [0x4248; 0xF5C3; 0]) false
    = Ret (Some (Struct.f32_of_bits 0x4248F5C3)) /\
  decode_float32 (Some [0x4248; 0xF5C3; 0]) false <> Ret None.
Proof. vm_compute. repeat split; congruence. Qed.

(** C3, as the code has it. [decode_float32] never raises; it gives no
    value exactly when there is no word list or the list has fewer than
    two words; a list of two or more words is decoded from its first two
    words, whatever follows them. *)
Theorem decode_float32_word_count (regs : option (list Z)) (swap_words : bool) :
  raises (decode_float32 regs swap_words) = false /\
  (decode_float32 regs swap_words = Ret None <->
     match regs with
     | None => True
     | Some l => (length l < 2)%nat
     end) /\
  match regs with
  | Some (r0 :: r1 :: rest) =>
      decode_float32 regs swap_words =
        Ret (Some (Struct.f32_of_bits (reassemble r0 r1 swap_words))) /\
      decode_float32 regs swap_words = decode_float32 (Some [r0; r1]) swap_words
  | _ => True
  end.
Proof.
  destruct regs as [[|r0 [|r1 rest]]|]; try (cbn; repeat split; auto; lia).
  rewrite !decode_float32_pair. cbn [raises length]. repeat split.
  - discriminate.
  - lia.
Qed.

(** C9. The decoder reads only the low 16 bits of each word: two word
    pairs that agree modulo [2^16] decode alike; the reassembled word is
    always a 32-bit pattern, and it is what the result is read from. *)
Theorem decode_float32_low_16_bits (r0 r1 r0' r1' : Z) (swap_words : bool) :
  r0 mod 65536 = r0' mod 65536 ->
  r1 mod 65536 = r1' mod 65536 ->
  decode_float32 (Some [r0; r1]) swap_words
    = decode_float32 (Some [r0'; r1']) swap_words /\
  0 <= reassemble r0 r1 swap_words < 2 ^ 32 /\
  decode_float32 (Some [r0; r1]) swap_words
    = Ret (Some (Struct.f32_of_bits (reassemble r0 r1 swap_words))).
Proof.
  intros H0 H1. rewrite !decode_float32_pair.
  split; [|split; [apply reassemble_range | reflexivity]].
  now rewrite !reassemble_value, H0, H1.
Qed.

(** Words wider than 16 bits, and a negative one. *)
Lemma decode_float32_low_16_bits_witness :
  0x54248 mod 65536 = 0x4248 mod 65536 /\
  (-2621) mod 65536 = 0xF5C3 mod 65536 /\
  decode_float32 (Some [0x54248; -2621]) false
    = decode_float32 (Some [0x4248; 0xF5C3]) false /\
  0 <= reassemble 0x54248 (-2621) false < 2 ^ 32 /\
  decode_float32 (Some [0x54248; -2621]) false
    = Ret (Some (Struct.f32_of_bits (reassemble 0x54248 (-2621) false))).
Proof.
  split; [reflexivity|]. split; [reflexivity|].
  apply (decode_float32_low_16_bits 0x54248 (-2621) 0x4248 0xF5C3 false);
    reflexivity.
Defined.

(** ** Counting in traces *)

Lemma count_map_eq {A B : Type} (f : A -> bool) (g : B -> bool)
    (l1 : list A) (l2 : list B) :
  map f l1 = map g l2 -> count f l1 = count g l2.
Proof.
  revert l2. induction l1 as [|x l1 IH]; intros [|y l2] Hm;
    try discriminate; [reflexivity|].
  cbn in Hm. injection Hm as Hx Hl. cbn. rewrite Hx. f_equal. now apply IH.
Qed.

Lemma count_complement {A : Type} (f : A -> bool) (l : list A) :
  (count f l + count (fun x => negb (f x)) l = length l)%nat.
Proof. induction l as [|x l IH]; [reflexivity|]. cbn. destruct (f x); cbn; lia. Qed.

Lemma published_app (t t' : list event) :
  published (t ++ t') = published t ++ published t'.
Proof.
  induction t as [|e t IH]; [reflexivity|].
  destruct e; cbn; rewrite ?IH; reflexivity.
Qed.

Lemma reads_app (t t' : list event) : reads (t ++ t') = reads t ++ reads t'.
Proof.
  induction t as [|e t IH]; [reflexivity|].
  destruct e; cbn; rewrite ?IH; reflexivity.
Qed.

Lemma read_slaves_app (t t' : list event) :
  read_slaves (t ++ t') = read_slaves t ++ read_slaves t'.
Proof.
  induction t as [|e t IH]; [reflexivity|].
  destruct e; cbn; rewrite ?IH; reflexivity.
Qed.

(** ** One poll cycle *)

Section PollOnce.

Context {C : Type} `{ModbusSerialClient C} `{Python}.

Ltac run_M :=
  unfold mbind, M_bind, bind, try_except, ret, lift, emit, after, _log,
    get, modify, showerror, raise in *; cbn [fst snd app] in *.

Lemma decode_float32_returns (regs : option (list Z)) (swap_words : bool) :
  exists v, decode_float32 regs swap_words = Ret v.
Proof.
  destruct regs as [[|r0 [|r1 rest]]|]; try (eexists; reflexivity).
  rewrite decode_float32_pair. eexists; reflexivity.
Qed.

(** One register, with a client at hand: one read, one result, and the
    result reports a transport error exactly when the read failed. *)
Lemma poll_register_client (slave : Z) (sw : bool) (idx : nat)
    (reg : RegItem.t) (a : App C) (c : C) :
  client a = Some c ->
  exists c' tr r v,
    poll_register slave sw idx reg a = (Ret (), set_client (Some c') a, tr) /\
    published tr = [(idx, v)] /\
    reads tr = [r] /\
    read_slaves tr = [slave] /\
    read_failed r = is_transport_error v.
Proof.
  intros Hc. unfold poll_register, client_read. run_M. rewrite Hc.
  destruct (RegItem.fc reg =? 3).
  - destruct (read_holding_registers c (RegItem.address reg)
                (RegItem.count reg) slave) as [[rr|e] c'].
    + destruct rr as [s|regs]; cbn.
      * eexists c', _, _, ERR. repeat split; reflexivity.
      * destruct (decode_float32_returns regs sw) as [v ->]. cbn.
        eexists c', _, _, _. repeat split; try reflexivity.
        now destruct v.
    + cbn. eexists c', _, _, EXC. repeat split; reflexivity.
  - destruct (read_input_registers c (RegItem.address reg)
                (RegItem.count reg) slave) as [[rr|e] c'].
    + destruct rr as [s|regs]; cbn.
      * eexists c', _, _, ERR. repeat split; reflexivity.
      * destruct (decode_float32_returns regs sw) as [v ->]. cbn.
        eexists c', _, _, _. repeat split; try reflexivity.
        now destruct v.
    + cbn. eexists c', _, _, EXC. repeat split; reflexivity.
Qed.

(** One register, with no client: no read, and the failure is reported
    for that register. *)
Lemma poll_register_no_client (slave : Z) (sw : bool) (idx : nat)
    (reg : RegItem.t) (a : App C) :
  client a = None ->
  exists tr,
    poll_register slave sw idx reg a = (Ret (), a, tr) /\
    published tr = [(idx, EXC)] /\ reads tr = [] /\ read_slaves tr = [].
Proof.
  intros Hc. unfold poll_register, client_read. run_M. rewrite Hc. cbn.
  eexists. repeat split; reflexivity.
Qed.

Lemma poll_registers_client (slave : Z) (sw : bool) (rs : list RegItem.t) :
  forall (idx : nat) (a : App C) (c : C),
    client a = Some c ->
    exists c' tr,
      poll_registers slave sw idx rs a = (Ret (), set_client (Some c') a, tr) /\
      map fst (published tr) = seq idx (length rs) /\
      map read_failed (reads tr)
        = map (fun p => is_transport_error (snd p)) (published tr) /\
      read_slaves tr = replicate (length rs) slave.
Proof.
  induction rs as [|reg rest IH]; intros idx a c Hc.
  - exists c, []. cbn. unfold ret. repeat split.
    destruct a; cbn in *; now subst.
  - destruct (poll_register_client slave sw idx reg a c Hc)
      as (c1 & tr1 & r & v & E1 & P1 & R1 & S1 & F1).
    destruct (IH (S idx) (set_client (Some c1) a) c1 eq_refl)
      as (c2 & tr2 & E2 & P2 & R2 & S2).
    exists c2, (tr1 ++ tr2). cbn [poll_registers]. run_M.
    rewrite E1, E2. rewrite published_app, reads_app, read_slaves_app.
    rewrite P1, R1, S1, S2, !map_app, P2, R2. cbn. rewrite F1.
    repeat split; reflexivity.
Qed.

Lemma poll_registers_no_client (slave : Z) (sw : bool) (rs : list RegItem.t) :
  forall (idx : nat) (a : App C),
    client a = None ->
    exists tr,
      poll_registers slave sw idx rs a = (Ret (), a, tr) /\
      map fst (published tr) = seq idx (length rs) /\
      reads tr = [] /\ read_slaves tr = [].
Proof.
  induction rs as [|reg rest IH]; intros idx a Hc.
  - exists []. repeat split.
  - destruct (poll_register_no_client slave sw idx reg a Hc)
      as (tr1 & E1 & P1 & R1 & S1).
    destruct (IH (S idx) a Hc) as (tr2 & E2 & P2 & R2 & S2).
    exists (tr1 ++ tr2). cbn [poll_registers]. run_M.
    rewrite E1, E2. rewrite published_app, reads_app, read_slaves_app.
    rewrite P1, R1, S1, S2, R2, map_app, P2. repeat split; reflexivity.
Qed.

Lemma poll_once_unfold (a : App C) :
  _poll_once a
    = poll_registers (slave_of (slave_var a)) (swap_words_var a) 0 (regs a) a.
Proof.
  unfold _poll_once, slave_of. run_M.
  destruct (builtin_int (slave_var a)); cbn;
    destruct (poll_registers _ _ _ _ a) as [[r a'] tr]; reflexivity.
Qed.

(** Whatever the reads do, a cycle ends normally with one result per
    register, in register order. *)
Lemma poll_once_completes (a : App C) :
  exists a' tr,
    _poll_once a = (Ret (), a', tr) /\
    map fst (published tr) = seq 0 (length (regs a)) /\
    (client a = None -> reads tr = []) /\
    (is_Some (client a) ->
       map read_failed (reads tr)
         = map (fun p => is_transport_error (snd p)) (published tr) /\
       read_slaves tr = replicate (length (regs a)) (slave_of (slave_var a))).
Proof.
  rewrite poll_once_unfold. destruct (client a) as [c|] eqn:Hc.
  - destruct (poll_registers_client (slave_of (slave_var a)) (swap_words_var a)
                (regs a) 0%nat a c Hc) as (c' & tr & E & P & R & S).
    exists (set_client (Some c') a), tr.
    split; [exact E|]. split; [exact P|]. split; [discriminate|].
    intros _. split; assumption.
  - destruct (poll_registers_no_client (slave_of (slave_var a))
                (swap_words_var a) (regs a) 0%nat a Hc) as (tr & E & P & R & S).
    exists a, tr.
    split; [exact E|]. split; [exact P|]. split; [intros _; exact R|].
    intros [? ?]; discriminate.
Qed.

(** C1. A cycle over N registers in which exactly one read fails ends
    normally and publishes N results, one per register in register order;
    the result of a register reports a transport error exactly when its
    read failed, so one result carries a transport error and the other
    N-1 do not. *)
Theorem poll_once_one_failure (a : App C) (r : outcome ()) (a' : App C)
    (tr : list event) :
  _poll_once a = (r, a', tr) ->
  count read_failed (reads tr) = 1%nat ->
  r = Ret () /\
  map fst (published tr) = seq 0 (length (regs a)) /\
  map read_failed (reads tr)
    = map (fun p => is_transport_error (snd p)) (published tr) /\
  count (fun p => is_transport_error (snd p)) (published tr) = 1%nat /\
  count (fun p => negb (is_transport_error (snd p))) (published tr)
    = (length (regs a) - 1)%nat.
Proof.
  intros E Hone.
  destruct (poll_once_completes a) as (a1 & tr1 & E1 & P & Hnone & Hsome).
  rewrite E1 in E. injection E as <- <- <-.
  destruct (client a) as [c|] eqn:Hc.
  - destruct (Hsome (ex_intro _ c eq_refl)) as [R _].
    assert (Hte : count (fun p => is_transport_error (snd p)) (published tr1) = 1%nat)
      by (rewrite <- Hone; symmetry; now apply count_map_eq).
    repeat split; auto.
    pose proof (count_complement (fun p => is_transport_error (snd p))
                  (published tr1)) as Hc'.
    cbn beta in Hc'.
    assert (Hlen : length (published tr1) = length (regs a))
      by (rewrite <- (length_map fst), P; apply length_seq).
    lia.
  - rewrite (Hnone eq_refl) in Hone. discriminate Hone.
Qed.

End PollOnce.

(** A cycle over the 23 default registers in which the meter refuses
    "Current B": 23 results, one of them a transport error. *)
Lemma poll_once_one_failure_witness :
  let x := _poll_once (H := (sim_client true meter))
             (running_app meter DEFAULT_REGS "1" "1000") in
  count read_failed (reads (snd x)) = 1%nat /\
  fst (fst x) = Ret () /\
  map fst (published (snd x)) = seq 0 23 /\
  map read_failed (reads (snd x))
    = map (fun p => is_transport_error (snd p)) (published (snd x)) /\
  count (fun p => is_transport_error (snd p)) (published (snd x)) = 1%nat /\
  count (fun p => negb (is_transport_error (snd p))) (published (snd x)) = 22%nat.
Proof.
  intros x. split; [vm_compute; reflexivity|].
  apply (poll_once_one_failure (H := sim_client true meter)
           (running_app meter DEFAULT_REGS "1" "1000")
           (fst (fst x)) (snd (fst x)) (snd x)).
  - subst x. now destruct (_poll_once _) as [[r a'] tr].
  - vm_compute; reflexivity.
Defined.

(** The same with a read that raises inside the client. *)
Lemma poll_once_raising_read :
  let x := _poll_once (H := (sim_client true meter_timeout))
             (running_app meter_timeout DEFAULT_REGS "1" "1000") in
  fst (fst x) = Ret () /\
  map (fun p => status_of (snd p)) (published (snd x))
    = replicate 7 Ok ++ [TransportError] ++ replicate 15 Ok /\
  (published (snd x)) !! 7%nat = Some (7%nat, EXC).
Proof. vm_compute. repeat split. Qed.

(** ** The scenario of the specification *)

(** The words [0x4248, 0xF5C3] do not decode to a number near 50.48: the
    decoded number is more than 0.1 away from it. *)
Lemma words_4248_F5C3_far_from_50_48 :
  exists x v,
    decode_float32 (Some [0x4248; 0xF5C3]) false = Ret (Some x) /\
    f32_value x = Some v /\
    ~ within (1 # 10) v (5048 # 100).
Proof.
  exists (Struct.f32_of_bits 0x4248F5C3), (13170115 # 262144)%Q.
  split; [reflexivity|]. split; [reflexivity|].
  unfold within. intros Hle.
  apply Qle_bool_iff in Hle. vm_compute in Hle. discriminate Hle.
Qed.

(** C7, as the code has it. The word pair [0x4248, 0xF5C3], without word
    swap, is reassembled into [0x4248F5C3] and decodes to the binary32
    number of that pattern, 13170115 / 2^18, which is 50.24 to two
    decimals; a cycle over the one register of the scenario publishes
    that number, multiplied by the scale 1.0, with status Ok. *)
Theorem decode_4248_F5C3 :
  let x := Struct.f32_of_bits 0x4248F5C3 in
  reassemble 0x4248 0xF5C3 false = 0x4248F5C3 /\
  decode_float32 (Some [0x4248; 0xF5C3]) false = Ret (Some x) /\
  f32_value x = Some (13170115 # 262144)%Q /\
  within (5 # 1000) (13170115 # 262144) (5024 # 100) /\
  (let cycle := _poll_once (H := (sim_client true meter))
                  (running_app meter [power_total] "1" "1000") in
   fst (fst cycle) = Ret () /\
   published (snd cycle) = [(0%nat, Formatted (f32_to_float x * 1))] /\
   map (fun p => status_of (snd p)) (published (snd cycle)) = [Ok]) /\
  Prim2SF (f32_to_float x * 1) = S754_finite false 7070651651194880 (-47) /\
  (7070651651194880 # 2 ^ 47 == 13170115 # 262144)%Q.
Proof.
  intros x. repeat split; try reflexivity.
  unfold within. apply Qle_bool_iff. reflexivity.
Qed.

(** ** Connecting *)

Section Connect.

Context {C : Type} `{ModbusSerialClient C} `{Python}.

Ltac run_M :=
  unfold mbind, M_bind, bind, try_except, ret, lift, emit, after, _log,
    get, modify, showerror, raise in *; cbn [fst snd app] in *.

(** C6, as the code has it. With refused settings [_connect] returns
    without touching the object: no client is built, no port is opened,
    no polling thread is started, and, unless a session is already open,
    all it does is show one error box. *)
Theorem connect_refuses_bad_settings (a : App C) (r : outcome ()) (a' : App C)
    (tr : list event) :
  settings_refused a ->
  _connect a = (r, a', tr) ->
  r = Ret () /\ a' = a /\
  forallb is_show_error tr = true /\
  (connected a = false -> exists msg, tr = [ShowError "Error" msg]).
Proof.
  intros Hbad E. unfold _connect in E. run_M.
  destruct (connected a) eqn:Hconn.
  { injection E as <- <- <-. repeat split. discriminate. }
  destruct (bool_decide (Py.strip (port_var a) = "")).
  { injection E as <- <- <-. repeat split. eexists; reflexivity. }
  destruct (builtin_int (baud_var a)) as [baud|e] eqn:Hbaud; cbn in E.
  2:{ injection E as <- <- <-. repeat split. eexists; reflexivity. }
  destruct (builtin_int (slave_var a)) as [slave|e] eqn:Hslave; cbn in E.
  2:{ injection E as <- <- <-. repeat split. eexists; reflexivity. }
  destruct ((1 <=? slave) && (slave <=? 247)) eqn:Hrange; cbn in E.
  2:{ injection E as <- <- <-. repeat split. eexists; reflexivity. }
  unfold valid_parity in E.
  destruct (bool_decide (Py.upper (Py.strip (parity_var a)) ∈ ["E"; "O"; "N"]))
    eqn:Hpar; cbn in E.
  2:{ injection E as <- <- <-. repeat split. eexists; reflexivity. }
  exfalso. destruct Hbad as [Hb|[Hb|[(n & Hn & Hb)|Hb]]].
  - rewrite Hbaud in Hb. discriminate Hb.
  - rewrite Hslave in Hb. discriminate Hb.
  - rewrite Hslave in Hn. injection Hn as <-. apply Hb.
    apply andb_true_iff in Hrange as [H1 H2].
    apply Z.leb_le in H1. apply Z.leb_le in H2. lia.
  - apply bool_decide_eq_true in Hpar. contradiction.
Qed.

End Connect.

(** A slave id of 0 in the entry field. *)
Lemma connect_refuses_bad_settings_witness :
  let I := sim_client true meter in
  let a : App SimClient := init_app DEFAULT_REGS "COM3" "19200" "E" "0" "1000" false in
  let x := _connect (H := I) a in
  settings_refused (C := SimClient) a /\
  fst (fst x) = Ret () /\ snd (fst x) = a /\
  forallb is_show_error (snd x) = true /\
  (connected a = false -> exists msg, snd x = [ShowError "Error" msg]).
Proof.
  intros I a x.
  assert (Hbad : settings_refused (C := SimClient) a).
  { right; right; left. exists 0. split; [reflexivity|lia]. }
  split; [exact Hbad|].
  apply (connect_refuses_bad_settings (H := I) a _ _ _ Hbad).
  subst x. now destruct (_connect a) as [[r a'] tr].
Defined.

(** A baud rate that is not among the choices of the selector but is a
    number: [_connect] builds the client with it, opens the port and
    starts polling. *)
Lemma connect_accepts_unlisted_baud :
  let a : App SimClient := init_app DEFAULT_REGS "COM3" "12345" "E" "1" "1000" false in
  let x := _connect (H := (sim_client true meter)) a in
  ("12345" ∉ baud_values) /\
  snd x = [NewClient "COM3" 12345 "E"; Connect true;
           LogLine "Connected OK."; ThreadStart] /\
  connected (snd (fst x)) = true /\ polling (snd (fst x)) = true.
Proof.
  intros a x. split.
  - apply (bool_decide_eq_false_1 ("12345" ∈ baud_values)). vm_compute. reflexivity.
  - vm_compute. repeat split.
Qed.

(** ** Disconnecting *)

Section Disconnect.

Context {C : Type} `{ModbusSerialClient C} `{Python}.

Ltac run_M :=
  unfold mbind, M_bind, bind, try_except, ret, lift, emit, after, _log,
    get, modify, showerror, raise in *; cbn [fst snd app] in *.

(** [_disconnect] never raises and leaves the object without client, not
    connected, not polling; run again on that object it changes nothing,
    closes nothing and does not raise. *)
Lemma disconnect_idempotent (a : App C) :
  let a1 := snd (fst (_disconnect a)) in
  fst (fst (_disconnect a)) = Ret () /\
  client a1 = None /\ connected a1 = false /\ polling a1 = false /\
  _disconnect a1 = (Ret (), a1, [Sleep 100; LogLine "Disconnected."]).
Proof.
  unfold _disconnect, disconnect_signal, disconnect_close. run_M.
  destruct a as [[c|] ? ? ? ? ? ? ? ? ? ? ? ? ?]; cbn.
  - destruct (close c) as [o c']; cbn. repeat split.
  - repeat split.
Qed.

(** A polling thread whose sleep is not over is left alone. *)
Lemma run_pollers_asleep (t : Z) (a : App C) (ths : list thread) :
  Forall (fun th => exists w, th = Sleeping w /\ t < w) ths ->
  run_pollers t a ths = (a, ths, []).
Proof.
  induction 1 as [|th ths (w & -> & Hw) _ IH]; [reflexivity|].
  cbn. replace (w <=? t) with false by (symmetry; apply Z.leb_gt; lia).
  now rewrite IH.
Qed.

Lemma advance_asleep (n : nat) :
  forall s : system C,
    Forall (fun th => exists w, th = Sleeping w /\ now s + Z.of_nat n < w)
      (pollers s) ->
    advance n s = MkSystem (app s) (now s + Z.of_nat n) (pollers s) (history s).
Proof.
  induction n as [|n IH]; intros s Hs.
  - destruct s; cbn. f_equal. lia.
  - cbn [advance]. unfold tick at 1.
    rewrite run_pollers_asleep.
    + rewrite IH; cbn [app now pollers history].
      * rewrite app_nil_r. f_equal. lia.
      * eapply Forall_impl; [exact Hs|]. intros th (w & -> & Hw).
        exists w. split; [reflexivity|lia].
    + eapply Forall_impl; [exact Hs|]. intros th (w & -> & Hw).
      exists w. split; [reflexivity|lia].
Qed.

(** [_disconnect] returns after its 100 ms whatever the polling threads
    do: those that sleep for longer are still there, asleep, when it
    returns with the client closed and dropped. *)
Lemma pollers_outlive_disconnect (s : system C) :
  Forall (fun th => exists w, th = Sleeping w /\ now s + 100 < w) (pollers s) ->
  let s' := press_disconnect s in
  now s' = now s + 100 /\ pollers s' = pollers s /\
  client (app s') = None /\ connected (app s') = false.
Proof.
  intros Hs s'. subst s'. unfold press_disconnect.
  assert (E1 : main_runs disconnect_signal s
               = MkSystem (set_polling false (app s)) (now s) (pollers s)
                   (history s ++ [])) by reflexivity.
  rewrite E1, advance_asleep by exact Hs.
  cbn [app now pollers history]. unfold main_runs. cbn [app now pollers history].
  destruct (disconnect_close (set_polling false (app s))) as [[r a'] tr] eqn:E.
  cbn [app now pollers history].
  unfold disconnect_close in E. run_M.
  destruct (client (set_polling false (app s))) as [c|]; cbn in E.
  - destruct (close c) as [o c']. cbn in E. injection E as <- <- <-.
    repeat split.
  - injection E as <- <- <-. repeat split.
Qed.

End Disconnect.

(** C8 at a concrete run: the application connects to the simulated meter
    with a poll interval of 1000 ms, polls once, and Disconnect is pressed
    5 ms after Connect.  [_disconnect] returns 100 ms later with the
    client dropped while the polling thread is still alive, asleep until
    instant 1001.  Connect is pressed again at once: the flag is set
    again before the first thread wakes, so that thread goes on, next to
    the thread just started, and both poll the one client. *)
Theorem disconnect_returns_before_poller_exits :
  let I := sim_client true meter in
  let s1 := advance (H := I) 5 (press_connect (H := I) idle_system) in
  let s2 := press_disconnect (H := I) s1 in
  let s3 := advance (H := I) 1000 (press_connect (H := I) s2) in
  (connected (app s1) = true /\ pollers s1 = [Sleeping 1001]) /\
  (now s2 = 105 /\ client (app s2) = None /\ connected (app s2) = false /\
   polling (app s2) = false /\ live_pollers s2 = 1%nat) /\
  (now s3 = 1105 /\ connected (app s3) = true /\ live_pollers s3 = 2%nat /\
   pollers s3 = [Sleeping 2001; Sleeping 1106]).
Proof. vm_compute. repeat split. Qed.

(** * More of the program *)

(** ** The list of serial ports *)

Lemma filter_other_usb (ports : list string) :
  List.filter
    (fun p => negb (bool_decide (p ∈ List.filter is_usb ports)) && negb (is_noise p))
    ports
  = List.filter (fun p => negb (is_usb p) && negb (is_noise p)) ports.
Proof.
  apply List.filter_ext_in. intros p Hp. f_equal. f_equal.
  destruct (is_usb p) eqn:Hu.
  - apply bool_decide_eq_true. apply list_elem_of_In.
    apply List.filter_In. now split.
  - apply bool_decide_eq_false. intros Hin. apply list_elem_of_In in Hin.
    apply List.filter_In in Hin as [_ Hin]. congruence.
Qed.

Lemma three_way_length {A : Type} (f g : A -> bool) (l : list A) :
  (length (List.filter f l ++
           List.filter (fun x => negb (f x) && negb (g x)) l ++
           List.filter g l)
   = length l + length (List.filter (fun x => f x && g x) l))%nat.
Proof.
  rewrite !length_app. induction l as [|x l IH]; [reflexivity|].
  cbn. destruct (f x), (g x); cbn; lia.
Qed.

Lemma three_way_perm {A : Type} (f g : A -> bool) (l : list A) :
  (forall x, In x l -> f x = true -> g x = false) ->
  List.filter f l ++ List.filter (fun x => negb (f x) && negb (g x)) l ++
  List.filter g l ≡ₚ l.
Proof.
  induction l as [|x l IH]; intros Hd; [reflexivity|].
  assert (IH' := IH (fun y Hy => Hd y (or_intror Hy))).
  cbn. destruct (f x) eqn:Hf.
  - rewrite (Hd x (or_introl eq_refl) Hf). cbn. now constructor.
  - destruct (g x); cbn.
    + rewrite app_assoc, <- Permutation_middle, <- app_assoc. now constructor.
    + rewrite <- Permutation_middle. now constructor.
Qed.

Lemma ports_preferred_eq (ports : list string) :
  list_serial_ports_preferred ports
    = List.filter is_usb ports
      ++ List.filter (fun p => negb (is_usb p) && negb (is_noise p)) ports
      ++ List.filter is_noise ports.
Proof. unfold list_serial_ports_preferred. now rewrite filter_other_usb. Qed.

Lemma ports_preferred_mem (ports : list string) (p : string) :
  p ∈ list_serial_ports_preferred ports <-> p ∈ ports.
Proof.
  rewrite ports_preferred_eq, !elem_of_app, !list_elem_of_In, !List.filter_In.
  split.
  - intros [[? _]|[[? _]|[? _]]]; assumption.
  - intros Hp. destruct (is_usb p) eqn:Hu; [left; now split|].
    destruct (is_noise p) eqn:Hn; [right; right; now split|].
    right; left. split; [assumption|reflexivity].
Qed.

(** X1. The list offered to the user is the USB-like ports, then the
    ports that are neither USB-like nor noise, then the noise ports, each
    group in the order of enumeration; it offers every enumerated port
    and nothing else. *)
Theorem ports_preferred_groups (ports : list string) :
  list_serial_ports_preferred ports
    = List.filter is_usb ports
      ++ List.filter (fun p => negb (is_usb p) && negb (is_noise p)) ports
      ++ List.filter is_noise ports /\
  (forall p, p ∈ list_serial_ports_preferred ports <-> p ∈ ports).
Proof.
  split; [apply ports_preferred_eq|]. intros p. apply ports_preferred_mem.
Qed.

(** X2. A port whose name is both USB-like and noise is listed twice,
    and only such a port is: the list is as long as the enumeration plus
    the number of those ports. *)
Theorem ports_preferred_length (ports : list string) :
  length (list_serial_ports_preferred ports)
    = (length ports
       + length (List.filter (fun p => is_usb p && is_noise p) ports))%nat.
Proof.
  rewrite ports_preferred_eq. apply three_way_length.
Qed.

(** X3. When no enumerated port is both USB-like and noise, the list is
    a rearrangement of the enumeration: no port is lost or repeated. *)
Theorem ports_preferred_permutation (ports : list string) :
  (forall p, p ∈ ports -> is_usb p = true -> is_noise p = false) ->
  list_serial_ports_preferred ports ≡ₚ ports.
Proof.
  intros Hd. rewrite ports_preferred_eq.
  apply three_way_perm. intros x Hx. apply Hd. now apply list_elem_of_In.
Qed.

Lemma ports_preferred_permutation_witness :
  let ports := ["/dev/cu.Bluetooth-Incoming-Port"; "/dev/cu.usbserial-1420";
                "COM3"; "/dev/cu.debug-console"] in
  (forall p, p ∈ ports -> is_usb p = true -> is_noise p = false) /\
  list_serial_ports_preferred ports ≡ₚ ports.
Proof.
  intros ports.
  assert (Hd : forall p, p ∈ ports -> is_usb p = true -> is_noise p = false).
  { intros p Hp. subst ports.
    repeat (apply elem_of_cons in Hp as [->|Hp]; [vm_compute; congruence|]).
    now apply elem_of_nil in Hp. }
  split; [exact Hd|]. exact (ports_preferred_permutation ports Hd).
Defined.

(** ** Refreshing the port selector *)

Section RefreshPorts.

Context {C : Type} `{ModbusSerialClient C}.

Ltac run_M :=
  unfold mbind, M_bind, bind, try_except, ret, lift, emit, after, _log,
    get, modify, showerror, raise in *; cbn [fst snd app] in *.

Lemma refresh_ports_result (comports : list string) (a : App C) :
  let ports := list_serial_ports_preferred comports in
  exists sel line,
    _refresh_ports comports a = (Ret ports, set_port_var sel a, [LogLine line]) /\
    sel = (if negb (bool_decide (port_var a = "")) && bool_decide (port_var a ∈ ports)
           then port_var a else default (port_var a) (head ports)).
Proof.
  intros ports. unfold _refresh_ports. fold ports. run_M.
  destruct (negb (bool_decide (port_var a = "")) && bool_decide (port_var a ∈ ports)).
  - eexists _, _. split; reflexivity.
  - destruct ports as [|p0 rest]; cbn.
    + eexists (port_var a), _. split; [|reflexivity]. now destruct a.
    + eexists _, _. split; reflexivity.
Qed.

(** X4. Refresh never raises and changes nothing but the selected port.
    With at least one port enumerated the selection afterwards is one of
    the ports offered: the one selected before when it is still there,
    the first one offered otherwise.  With no port enumerated the
    selection is left as it was. *)
Theorem refresh_ports_selection (comports : list string) (a : App C) :
  let ports := list_serial_ports_preferred comports in
  let x := _refresh_ports comports a in
  let a' := snd (fst x) in
  fst (fst x) = Ret ports /\
  a' = set_port_var (port_var a') a /\
  (comports <> [] -> port_var a' ∈ comports) /\
  (port_var a <> "" -> port_var a ∈ comports -> port_var a' = port_var a) /\
  (port_var a ∉ comports -> head ports = Some (port_var a') \/ comports = []) /\
  (comports = [] -> port_var a' = port_var a).
Proof.
  intros ports x a'. subst x a'.
  destruct (refresh_ports_result comports a) as (sel & line & E & Hsel).
  fold ports in E, Hsel. rewrite E. cbn [fst snd].
  pose proof (ports_preferred_mem comports) as Hmem. fold ports in Hmem.
  change (port_var (set_port_var sel a)) with sel.
  assert (Hnil : ports = [] -> comports = []).
  { intros Hp. destruct comports as [|c0 cs]; [reflexivity|]. exfalso.
    assert (Hc : c0 ∈ ports) by (apply Hmem; left).
    rewrite Hp in Hc. now apply elem_of_nil in Hc. }
  assert (Hhead : forall p, head ports = Some p -> p ∈ comports).
  { intros p Hh. apply Hmem. destruct ports as [|p0 rest]; [discriminate|].
    injection Hh as ->. left. }
  split; [reflexivity|]. split; [reflexivity|].
  repeat case_bool_decide; cbn [negb andb] in Hsel; subst sel.
  - (* nothing selected before *)
    destruct (head ports) as [p0|] eqn:Hh; cbn [default].
    + repeat split; try tauto; try congruence; auto.
      intros ->. subst ports. discriminate Hh.
    + assert (comports = []) by (apply Hnil; now destruct ports).
      repeat split; try tauto; try congruence; auto.
  - destruct (head ports) as [p0|] eqn:Hh; cbn [default].
    + repeat split; try tauto; try congruence; auto.
      intros ->. subst ports. discriminate Hh.
    + assert (comports = []) by (apply Hnil; now destruct ports).
      repeat split; try tauto; try congruence; auto.
  - (* the port selected before is still there *)
    assert (port_var a ∈ comports) by now apply Hmem.
    repeat split; tauto.
  - (* the port selected before is gone *)
    assert (port_var a ∉ comports) by (intros Hc; now apply Hmem in Hc).
    destruct (head ports) as [p0|] eqn:Hh; cbn [default].
    + repeat split; try tauto; try congruence; auto.
      intros ->. subst ports. discriminate Hh.
    + assert (comports = []) by (apply Hnil; now destruct ports).
      repeat split; try tauto; try congruence; auto.
Qed.

(** X5. When nothing is selected yet, or the port selected before is no
    longer enumerated, Refresh selects the first USB-like port of the
    enumeration, if there is one. *)
Theorem refresh_ports_prefers_usb (comports : list string) (a : App C) (u : string) :
  port_var a = "" \/ port_var a ∉ comports ->
  head (List.filter is_usb comports) = Some u ->
  port_var (snd (fst (_refresh_ports comports a))) = u.
Proof.
  intros Hsel Hu.
  destruct (refresh_ports_result comports a) as (sel & line & E & ->).
  rewrite E. cbn [fst snd].
  change (port_var (set_port_var ?s a)) with s.
  pose proof (ports_preferred_eq comports) as Eg.
  pose proof (ports_preferred_mem comports) as Hmem.
  assert (Hkeep : negb (bool_decide (port_var a = ""))
                  && bool_decide (port_var a ∈ list_serial_ports_preferred comports)
                  = false).
  { destruct Hsel as [He|Hn].
    - now rewrite bool_decide_eq_true_2.
    - rewrite (bool_decide_eq_false_2 (port_var a ∈ _)); [apply andb_false_r|].
      intros Hc. now apply Hmem in Hc. }
  rewrite Hkeep, Eg.
  destruct (List.filter is_usb comports) as [|u0 us]; [discriminate|].
  now injection Hu as ->.
Qed.

End RefreshPorts.

Lemma refresh_ports_prefers_usb_witness :
  let comports := ["/dev/cu.Bluetooth-Incoming-Port"; "COM3";
                   "/dev/cu.usbserial-1420"; "/dev/cu.usbmodem7"] in
  let a : App SimClient := init_app DEFAULT_REGS "" "19200" "E" "1" "1000" false in
  (port_var a = "" \/ port_var a ∉ comports) /\
  head (List.filter is_usb comports) = Some "/dev/cu.usbserial-1420" /\
  port_var (snd (fst (_refresh_ports comports a))) = "/dev/cu.usbserial-1420".
Proof.
  intros comports a.
  assert (H1 : port_var a = "" \/ port_var a ∉ comports) by (left; reflexivity).
  assert (H2 : head (List.filter is_usb comports) = Some "/dev/cu.usbserial-1420")
    by reflexivity.
  split; [exact H1|]. split; [exact H2|].
  exact (refresh_ports_prefers_usb comports a _ H1 H2).
Defined.

(** ** The table of live values *)

Lemma lookup_map {A B : Type} (f : A -> B) (l : list A) :
  forall i, map f l !! i = f <$> l !! i.
Proof.
  induction l as [|x l IH]; intros [|i]; cbn; try reflexivity. apply IH.
Qed.

Lemma pretty_eqb (i k : nat) :
  String.eqb (pretty i) (pretty k) = bool_decide (i = k).
Proof.
  destruct (String.eqb_spec (pretty i) (pretty k)) as [E|E].
  - symmetry. apply bool_decide_eq_true. now apply (inj pretty).
  - symmetry. apply bool_decide_eq_false. intros ->. now apply E.
Qed.

Lemma tree_from_app (rows1 rows2 : list row) :
  forall i, tree_from i (rows1 ++ rows2)
            = tree_from i rows1 ++ tree_from (i + length rows1) rows2.
Proof.
  induction rows1 as [|r rows1 IH]; intros i; cbn.
  - now rewrite Nat.add_0_r.
  - rewrite IH. do 3 f_equal. lia.
Qed.

Lemma tree_from_ids (rows : list row) :
  forall i, map fst (tree_from i rows) = map pretty (seq i (length rows)).
Proof. induction rows as [|r rows IH]; intros i; cbn; [|rewrite IH]; reflexivity. Qed.

Lemma tree_from_lookup (rows : list row) (k : nat) :
  forall i, tree_from i rows !! k = (fun r => (pretty (i + k)%nat, r)) <$> rows !! k.
Proof.
  revert k. induction rows as [|r rows IH]; intros k i; [reflexivity|].
  destruct k as [|k]; cbn.
  - now rewrite Nat.add_0_r.
  - rewrite IH. now replace (S i + k)%nat with (i + S k)%nat by lia.
Qed.

(** An item id [str(k)] is in the table exactly when [k] is the index of
    one of its lines. *)
Lemma tree_from_exists (rows : list row) (k : nat) :
  forall i, Tree.exists_ (pretty k) (tree_from i rows)
            = bool_decide (i <= k < i + length rows)%nat.
Proof.
  unfold Tree.exists_. induction rows as [|r rows IH]; intros i; cbn.
  - symmetry. apply bool_decide_eq_false. lia.
  - rewrite IH, pretty_eqb. repeat case_bool_decide; cbn; try reflexivity; lia.
Qed.

Lemma tree_from_set (rows : list row) (k : nat) (v : val_txt) :
  forall i,
    map (fun item => if String.eqb (fst item) (pretty k)
                     then (fst item, Tree.set_value v (snd item)) else item)
        (tree_from i rows)
    = tree_from i (if decide (i <= k)%nat
                   then alter (Tree.set_value v) (k - i)%nat rows else rows).
Proof.
  induction rows as [|r rows IH]; intros i.
  - now destruct (decide (i <= k)%nat).
  - cbn [tree_from map fst snd]. rewrite IH, pretty_eqb.
    case_bool_decide as Hik.
    + subst k. rewrite decide_False by lia. rewrite decide_True by lia.
      now rewrite Nat.sub_diag.
    + destruct (decide (i <= k)%nat) as [Hle|Hgt].
      * rewrite decide_True by lia.
        replace (k - i)%nat with (S (k - S i)) by lia. reflexivity.
      * rewrite decide_False by lia. reflexivity.
Qed.

Lemma alter_out_of_range {A : Type} (f : A -> A) (l : list A) :
  forall k, (length l <= k)%nat -> alter f k l = l.
Proof.
  induction l as [|x l IH]; intros k Hk; [reflexivity|].
  destruct k as [|k]; cbn in *; [lia|]. f_equal. apply IH. lia.
Qed.

(** On a table with item ids [str(0)], [str(1)], ... a callback writes
    the VALUE cell of the line of its index, and nothing when there is no
    such line. *)
Lemma set_tree_value_rows (rows : list row) (k : nat) (v : val_txt) :
  _set_tree_value k v (tree_from 0 rows)
    = Some (tree_from 0 (alter (Tree.set_value v) k rows)).
Proof.
  unfold _set_tree_value, Tree.set. rewrite tree_from_exists.
  case_bool_decide as Hk.
  - rewrite tree_from_set, decide_True by lia. now rewrite Nat.sub_0_r.
  - rewrite alter_out_of_range by lia. reflexivity.
Qed.

Lemma render_from_rows (rs : list RegItem.t) :
  forall rows,
    render_from (length rows) rs (tree_from 0 rows)
      = Some (tree_from 0 (rows ++ map row_of rs)).
Proof.
  induction rs as [|r rs IH]; intros rows; cbn.
  - now rewrite app_nil_r.
  - unfold Tree.insert. rewrite tree_from_exists.
    rewrite bool_decide_eq_false_2 by lia.
    replace (tree_from 0 rows ++ [(pretty (length rows), row_of r)])
      with (tree_from 0 (rows ++ [row_of r]))
      by (now rewrite tree_from_app).
    replace (S (length rows)) with (length (rows ++ [row_of r]))
      by (rewrite length_app; cbn; lia).
    rewrite IH. now rewrite <- app_assoc.
Qed.

(** X6. [_render_regs] never fails, whatever was in the table before:
    the table then has one line per register, in register order, with
    item ids "0", "1", ..., the address column holding offset - 1 and the
    VALUE cell empty. *)
Theorem render_regs_rows (rs : list RegItem.t) (t : tree) :
  exists t',
    _render_regs rs t = Some t' /\
    length t' = length rs /\
    map fst t' = map pretty (seq 0 (length rs)) /\
    forall i r, rs !! i = Some r ->
      t' !! i = Some (pretty i,
                      MkRow (RegItem.name r) (RegItem.fc r) (RegItem.offset r)
                        (RegItem.offset r - 1) (RegItem.unit r) None).
Proof.
  exists (tree_from 0 (map row_of rs)). split.
  - unfold _render_regs. exact (render_from_rows rs []).
  - split; [|split].
    + rewrite <- (length_map fst), tree_from_ids, !length_map, length_seq.
      reflexivity.
    + now rewrite tree_from_ids, length_map.
    + intros i r Hi. rewrite tree_from_lookup, lookup_map, Hi. reflexivity.
Qed.

(** X7. [_set_tree_value] never fails, on any table: it keeps the item
    ids and their order, leaves every line with another item id as it
    is, and in a line with item id [str(idx)] replaces the VALUE cell only. *)
Theorem set_tree_value_frame (idx : nat) (v : val_txt) (t : tree) :
  exists t',
    _set_tree_value idx v t = Some t' /\
    map fst t' = map fst t /\
    (forall j iid r, t !! j = Some (iid, r) ->
       t' !! j = Some (iid, if bool_decide (iid = pretty idx)
                            then MkRow (row_name r) (row_fc r) (row_offset r)
                                   (row_address r) (row_unit r) (Some v)
                            else r)) /\
    (Tree.exists_ (pretty idx) t = false -> t' = t).
Proof.
  unfold _set_tree_value, Tree.set. unfold tree in *.
  destruct (Tree.exists_ (pretty idx) t) eqn:Hex.
  - eexists. split; [reflexivity|]. split; [|split].
    + rewrite map_map. apply map_ext. intros [iid r]; cbn.
      now destruct (String.eqb iid (pretty idx)).
    + intros j iid r Hj. rewrite lookup_map, Hj. cbn.
      destruct (String.eqb_spec iid (pretty idx)) as [E|E].
      * now rewrite bool_decide_eq_true_2.
      * now rewrite bool_decide_eq_false_2.
    + discriminate.
  - exists t. split; [reflexivity|]. split; [reflexivity|]. split; [|reflexivity].
    intros j iid r Hj. rewrite bool_decide_eq_false_2; [exact Hj|].
    intros ->. unfold Tree.exists_ in Hex.
    assert (Hx : existsb (fun item => String.eqb (fst item) (pretty idx)) t = true).
    { apply existsb_exists. exists (pretty idx, r). split.
      - apply list_elem_of_In. eapply list_elem_of_lookup_2; eassumption.
      - apply String.eqb_refl. }
    congruence.
Qed.

(** ** A poll cycle, read by read *)

Lemma requests_app (t t' : list event) :
  requests (t ++ t') = requests t ++ requests t'.
Proof.
  induction t as [|e t IH]; [reflexivity|].
  destruct e; cbn; rewrite ?IH; reflexivity.
Qed.

Lemma log_lines_app (t t' : list event) :
  log_lines (t ++ t') = log_lines t ++ log_lines t'.
Proof.
  induction t as [|e t IH]; [reflexivity|].
  destruct e; cbn; rewrite ?IH; reflexivity.
Qed.

Lemma count_app {A : Type} (f : A -> bool) (l1 l2 : list A) :
  count f (l1 ++ l2) = (count f l1 + count f l2)%nat.
Proof. induction l1 as [|x l1 IH]; cbn; [reflexivity|]. rewrite IH. lia. Qed.

Section PollDetail.

Context {C : Type} `{ModbusSerialClient C} `{Python}.

Ltac run_M :=
  unfold mbind, M_bind, bind, try_except, ret, lift, emit, after, _log,
    get, modify, showerror, raise in *; cbn [fst snd app] in *.

Lemma decode_float32_value (regs : option (list Z)) (sw : bool) :
  decode_float32 regs sw
    = Ret match regs with
          | Some (r0 :: r1 :: _) => Some (Struct.f32_of_bits (reassemble r0 r1 sw))
          | _ => None
          end.
Proof.
  destruct regs as [[|r0 [|r1 rest]]|]; try reflexivity.
  apply decode_float32_pair.
Qed.

(** What a register's turn of the loop leaves in the trace. *)
Lemma poll_register_detail (slave : Z) (sw : bool) (idx : nat)
    (reg : RegItem.t) (a : App C) (c : C) :
  client a = Some c ->
  exists c' tr r,
    poll_register slave sw idx reg a = (Ret (), set_client (Some c') a, tr) /\
    published tr = [(idx, cell_of sw reg r)] /\
    reads tr = [r] /\
    requests tr = [request_of slave reg] /\
    log_lines tr = log_of reg r /\
    List.filter is_sleep tr = [] /\
    count is_show_error tr = 0%nat.
Proof.
  intros Hc. unfold poll_register, client_read, request_of. run_M. rewrite Hc.
  destruct (RegItem.fc reg =? 3).
  - destruct (read_holding_registers c (RegItem.address reg)
                (RegItem.count reg) slave) as [[rr|e] c'].
    + destruct rr as [s|w]; cbn [isError reply_registers reply_str].
      * cbn. eexists c', _, _; repeat split; reflexivity.
      * rewrite decode_float32_value. cbn.
        eexists c', _, _; repeat split; try reflexivity.
        now destruct w as [[|r0 [|r1 rest]]|].
    + cbn. eexists c', _, _; repeat split; reflexivity.
  - destruct (read_input_registers c (RegItem.address reg)
                (RegItem.count reg) slave) as [[rr|e] c'].
    + destruct rr as [s|w]; cbn [isError reply_registers reply_str].
      * cbn. eexists c', _, _; repeat split; reflexivity.
      * rewrite decode_float32_value. cbn.
        eexists c', _, _; repeat split; try reflexivity.
        now destruct w as [[|r0 [|r1 rest]]|].
    + cbn. eexists c', _, _; repeat split; reflexivity.
Qed.

Lemma poll_registers_detail (slave : Z) (sw : bool) (rs : list RegItem.t) :
  forall (idx : nat) (a : App C) (c : C),
    client a = Some c ->
    exists c' tr,
      poll_registers slave sw idx rs a = (Ret (), set_client (Some c') a, tr) /\
      length (reads tr) = length rs /\
      published tr = zip (seq idx (length rs)) (zip_with (cell_of sw) rs (reads tr)) /\
      requests tr = map (request_of slave) rs /\
      log_lines tr = concat (zip_with log_of rs (reads tr)) /\
      List.filter is_sleep tr = [] /\
      count is_show_error tr = 0%nat.
Proof.
  induction rs as [|reg rest IH]; intros idx a c Hc.
  - exists c, []. cbn. unfold ret. repeat split.
    destruct a; cbn in *; now subst.
  - destruct (poll_register_detail slave sw idx reg a c Hc)
      as (c1 & tr1 & r & E1 & P1 & R1 & Q1 & L1 & S1 & B1).
    destruct (IH (S idx) (set_client (Some c1) a) c1 eq_refl)
      as (c2 & tr2 & E2 & Hlen & P2 & Q2 & L2 & S2 & B2).
    exists c2, (tr1 ++ tr2). cbn [poll_registers]. run_M.
    rewrite E1, E2.
    rewrite published_app, reads_app, requests_app, log_lines_app, List.filter_app,
      count_app.
    rewrite P1, R1, Q1, L1, P2, Q2, L2, S1, S2, B1, B2. cbn. rewrite Hlen.
    repeat split; reflexivity.
Qed.

Lemma poll_registers_no_client_detail (slave : Z) (sw : bool) (rs : list RegItem.t) :
  forall (idx : nat) (a : App C),
    client a = None ->
    exists tr,
      poll_registers slave sw idx rs a = (Ret (), a, tr) /\
      published tr = zip (seq idx (length rs)) (replicate (length rs) EXC) /\
      requests tr = [] /\
      length (log_lines tr) = length rs /\
      List.filter is_sleep tr = [] /\
      count is_show_error tr = 0%nat.
Proof.
  induction rs as [|reg rest IH]; intros idx a Hc.
  - exists []. repeat split.
  - destruct (IH (S idx) a Hc) as (tr2 & E2 & P2 & Q2 & L2 & S2 & B2).
    eexists. cbn [poll_registers]. unfold poll_register, client_read. run_M.
    rewrite Hc. cbn. rewrite E2. split; [reflexivity|].
    cbn. rewrite P2, Q2, L2, S2, B2. repeat split.
Qed.

(** X8. With a client at hand, the result published for each register
    is read off the result of that register's own read: "EXC" when the
    call raised, "ERR" when the response is an error, "N/A" when the
    response carries no word list or fewer than two words, and otherwise
    the number decoded from the first two words times the register's
    scale. *)
Theorem poll_once_cells (a : App C) (c : C) (r : outcome ()) (a' : App C)
    (tr : list event) :
  client a = Some c ->
  _poll_once a = (r, a', tr) ->
  forall i reg, regs a !! i = Some reg ->
    exists rd,
      reads tr !! i = Some rd /\
      published tr !! i
        = Some (i, match rd with
                   | Exn _ => EXC
                   | Ret (ErrorReply _) => ERR
                   | Ret (Registers (Some (r0 :: r1 :: _))) =>
                       Formatted
                         (f32_to_float
                            (Struct.f32_of_bits (reassemble r0 r1 (swap_words_var a)))
                          * RegItem.scale reg)
                   | Ret (Registers _) => NA
                   end).
Proof.
  intros Hc E i reg Hi. rewrite poll_once_unfold in E.
  destruct (poll_registers_detail (slave_of (slave_var a)) (swap_words_var a)
              (regs a) 0%nat a c Hc) as (c' & tr' & E' & Hlen & P & _).
  rewrite E' in E. injection E as <- <- <-.
  assert (Hlt : (i < length (reads tr'))%nat)
    by (rewrite Hlen; eapply lookup_lt_Some; eassumption).
  destruct (lookup_lt_is_Some_2 _ _ Hlt) as [rd Hrd].
  exists rd. split; [exact Hrd|].
  rewrite P. apply lookup_zip_with_Some. exists i, (cell_of (swap_words_var a) reg rd).
  split; [reflexivity|]. split.
  - apply lookup_seq. split; [reflexivity|]. eapply lookup_lt_Some; eassumption.
  - apply lookup_zip_with_Some. exists reg, rd. repeat split; assumption.
Qed.

(** X9. With a client at hand, a cycle makes exactly one request per
    register, in register order: at wire address offset - 1, for the
    register's word count, to the slave id of the cycle, which is what
    [int] reads in the slave-id field and 1 when [int] raises, as a
    holding-register read when the function code is 3 and as an
    input-register read for any other function code. *)
Theorem poll_once_requests (a : App C) (c : C) (r : outcome ()) (a' : App C)
    (tr : list event) :
  client a = Some c ->
  _poll_once a = (r, a', tr) ->
  requests tr
    = map (fun reg => MkRequest (RegItem.fc reg =? 3) (RegItem.offset reg - 1)
                        (RegItem.count reg) (slave_of (slave_var a)))
          (regs a).
Proof.
  intros Hc E. rewrite poll_once_unfold in E.
  destruct (poll_registers_detail (slave_of (slave_var a)) (swap_words_var a)
              (regs a) 0%nat a c Hc) as (c' & tr' & E' & _ & _ & Q & _).
  rewrite E' in E. injection E as <- <- <-. exact Q.
Qed.

(** X10. With a client at hand, a cycle writes one log line for each
    read that raised or whose response is an error, naming the register,
    and no line for a read that returned words, even when the result is
    "N/A". *)
Theorem poll_once_log (a : App C) (c : C) (r : outcome ()) (a' : App C)
    (tr : list event) :
  client a = Some c ->
  _poll_once a = (r, a', tr) ->
  log_lines tr = concat (zip_with log_of (regs a) (reads tr)) /\
  length (log_lines tr) = count read_failed (reads tr).
Proof.
  intros Hc E. rewrite poll_once_unfold in E.
  destruct (poll_registers_detail (slave_of (slave_var a)) (swap_words_var a)
              (regs a) 0%nat a c Hc) as (c' & tr' & E' & Hlen & _ & _ & L & _).
  rewrite E' in E. injection E as <- <- <-. split; [exact L|].
  rewrite L. clear -Hlen. revert Hlen. generalize (reads tr') as rds.
  induction (regs a) as [|reg rs IH]; intros [|rd rds] Hlen; try discriminate;
    [reflexivity|].
  cbn in Hlen. injection Hlen as Hlen. cbn [zip_with concat count].
  rewrite length_app, (IH rds Hlen).
  destruct rd as [[s|w]|e]; reflexivity.
Qed.

(** X12. A cycle that finds no client (a Disconnect has dropped it)
    makes no request at all, leaves the object as it is, publishes "EXC"
    for every register and writes one log line per register. *)
Theorem poll_once_without_client (a : App C) :
  client a = None ->
  exists tr,
    _poll_once a = (Ret (), a, tr) /\
    requests tr = [] /\
    published tr
      = zip (seq 0 (length (regs a))) (replicate (length (regs a)) EXC) /\
    length (log_lines tr) = length (regs a).
Proof.
  intros Hc. rewrite poll_once_unfold.
  destruct (poll_registers_no_client_detail (slave_of (slave_var a))
              (swap_words_var a) (regs a) 0%nat a Hc) as (tr & E & P & Q & L & _).
  exists tr. repeat split; assumption.
Qed.

(** A cycle, then the sleep: what one turn of the polling loop does.
    The turn returns when the sleep returns and raises what it raises. *)
Lemma poll_loop_body_detail (a : App C) :
  let p := poll_ms_of (poll_ms_var a) in
  exists a1 tr1,
    poll_loop_body a
      = (match time_sleep p with Ret _ => Ret p | Exn e => Exn e end,
         a1, tr1 ++ [Sleep p]) /\
    a1 = set_client (client a1) a /\
    (is_Some (client a1) <-> is_Some (client a)) /\
    List.filter is_sleep tr1 = [] /\
    count is_show_error tr1 = 0%nat /\
    (if connected a && bool_decide (is_Some (client a))
     then length (published tr1) = length (regs a)
     else tr1 = [] /\ a1 = a).
Proof.
  intros p. subst p. unfold poll_loop_body. run_M.
  destruct (connected a && bool_decide (is_Some (client a))) eqn:Hgo.
  - rewrite poll_once_unfold. destruct (client a) as [c|] eqn:Hc.
    + destruct (poll_registers_detail (slave_of (slave_var a)) (swap_words_var a)
                  (regs a) 0%nat a c Hc)
        as (c' & tr & E & Hlen & P & _ & _ & S & B).
      rewrite E. exists (set_client (Some c') a), tr.
      split; [destruct (time_sleep _) as [[]|e]; reflexivity|].
      split; [reflexivity|]. split.
      { cbn. split; intros _; eexists; reflexivity. }
      split; [exact S|]. split; [exact B|].
      rewrite P, length_zip, length_seq, length_zip_with. lia.
    + exfalso. apply andb_true_iff in Hgo as [_ Hd].
      apply bool_decide_eq_true in Hd. destruct Hd; discriminate.
  - exists a, []. split; [destruct (time_sleep _) as [[]|e]; reflexivity|].
    split; [now destruct a|]. repeat split; auto.
Qed.

Lemma count_no_sleep (tr : list event) :
  List.filter is_sleep tr = [] -> count is_sleep tr = 0%nat.
Proof.
  induction tr as [|e tr IH]; [reflexivity|].
  cbn. destruct (is_sleep e); [discriminate|]. exact IH.
Qed.

Lemma poll_ms_of_floor (field : string) : 200 <= poll_ms_of field.
Proof.
  unfold poll_ms_of. destruct (builtin_int field) as [n|e]; [|lia].
  destruct (Z.ltb_spec n 200); lia.
Qed.

(** C5. The delay of a turn of the polling loop is 1000 ms when [int]
    raises on the interval field, and otherwise the value [int] reads,
    raised to 200 ms when it is smaller; it is never below 200 ms, an
    interval of 50 gives 200, and this delay is the one the turn hands to
    its sleep, the only sleep of the turn and its last call.  The sleep
    is outside the [try]: the turn returns when the sleep returns, and
    raises what the sleep raises when the delay is too large for it. *)
Theorem poll_interval_clamped (a : App C) :
  let field := poll_ms_var a in
  poll_ms_of field
    = match builtin_int field with
      | Exn _ => 1000
      | Ret n => Z.max 200 n
      end /\
  200 <= poll_ms_of field /\
  (builtin_int field = Ret 50 -> poll_ms_of field = 200) /\
  exists a' tr,
    poll_loop_body a
      = (match time_sleep (poll_ms_of field) with
         | Ret _ => Ret (poll_ms_of field)
         | Exn e => Exn e
         end, a', tr ++ [Sleep (poll_ms_of field)]) /\
    count is_sleep tr = 0%nat.
Proof.
  intros field. split; [|split; [|split]].
  - unfold poll_ms_of. destruct (builtin_int field) as [n|e]; [|reflexivity].
    destruct (Z.ltb_spec n 200); lia.
  - apply poll_ms_of_floor.
  - intros E. unfold poll_ms_of. now rewrite E.
  - destruct (poll_loop_body_detail a) as (a1 & tr1 & E & _ & _ & S & _).
    exists a1, tr1. split; [exact E|]. now apply count_no_sleep.
Qed.

(** C10. When [int] raises on the slave-id field at the start of a
    cycle, the cycle does not fail: it ends normally with a result for
    every register and every read of the cycle is addressed to slave 1.
    Nothing tells of the fallback: the cycle is, call for call, the loop
    over the registers run with slave 1; no error box is shown, and with
    a client at hand the only log lines are those of the reads that
    failed. *)
Theorem poll_once_unparsable_slave (a : App C) (r : outcome ()) (a' : App C)
    (tr : list event) :
  raises (builtin_int (slave_var a)) = true ->
  _poll_once a = (r, a', tr) ->
  r = Ret () /\
  length (published tr) = length (regs a) /\
  Forall (fun s => s = 1) (read_slaves tr) /\
  (is_Some (client a) ->
     read_slaves tr = replicate (length (regs a)) 1 /\
     length (log_lines tr) = count read_failed (reads tr)) /\
  count is_show_error tr = 0%nat /\
  poll_registers 1 (swap_words_var a) 0 (regs a) a = (r, a', tr).
Proof.
  intros Hbad E.
  assert (Hs : slave_of (slave_var a) = 1).
  { unfold slave_of. now destruct (builtin_int (slave_var a)). }
  assert (Eloop : poll_registers 1 (swap_words_var a) 0 (regs a) a = (r, a', tr))
    by (rewrite <- Hs, <- poll_once_unfold; exact E).
  destruct (poll_once_completes a) as (a1 & tr1 & E1 & P & Hnone & Hsome).
  rewrite E1 in E. injection E as <- <- <-. rewrite Hs in Hsome.
  split; [reflexivity|]. split.
  { rewrite <- (length_map fst), P. apply length_seq. }
  rewrite poll_once_unfold in E1.
  destruct (client a) as [c|] eqn:Hc.
  - destruct (Hsome (ex_intro _ c eq_refl)) as [_ S].
    destruct (poll_registers_detail (slave_of (slave_var a)) (swap_words_var a)
                (regs a) 0%nat a c Hc)
      as (c' & tr' & E' & Hlen & _ & _ & L & _ & B).
    rewrite E' in E1. injection E1 as <- <-.
    split; [|split; [intros _; split; [exact S|]|split; [exact B|exact Eloop]]].
    + rewrite S. apply Forall_forall. intros x Hx.
      now apply elem_of_replicate in Hx.
    + rewrite L. clear -Hlen. revert Hlen. generalize (reads tr') as rds.
      induction (regs a) as [|reg rs IH]; intros [|rd rds] Hlen;
        try discriminate; [reflexivity|].
      cbn in Hlen. injection Hlen as Hlen. cbn [zip_with concat count].
      rewrite length_app, (IH rds Hlen).
      destruct rd as [[s|w]|e]; reflexivity.
  - destruct (poll_registers_no_client_detail (slave_of (slave_var a))
                (swap_words_var a) (regs a) 0%nat a Hc)
      as (tr2 & E2 & _ & _ & _ & _ & B2).
    rewrite E2 in E1. injection E1 as <- <-.
    destruct (poll_registers_no_client (slave_of (slave_var a))
                (swap_words_var a) (regs a) 0%nat a Hc) as (tr3 & E3 & _ & _ & S3).
    rewrite E2 in E3. injection E3 as <-. rewrite S3.
    split; [constructor|]. split; [intros [? ?]; discriminate|].
    split; [exact B2|exact Eloop].
Qed.

(** X13. A turn of the polling loop changes nothing in the object but
    the state of the client: the flags, the register list, the entry
    fields and the buttons are as before, and a client that was there is
    still there.  The turn ends with its one sleep, of at least 200 ms;
    it returns when that sleep returns, and raises what the sleep raises
    when the interval is too large for it. *)
Theorem poll_turn_frame (a : App C) :
  let p := poll_ms_of (poll_ms_var a) in
  exists a' tr,
    poll_loop_body a
      = (match time_sleep p with Ret _ => Ret p | Exn e => Exn e end,
         a', tr ++ [Sleep p]) /\
    a' = set_client (client a') a /\
    (is_Some (client a') <-> is_Some (client a)) /\
    count is_sleep tr = 0%nat /\
    200 <= p.
Proof.
  intros p.
  destruct (poll_loop_body_detail a) as (a1 & tr1 & E & Ha & Hc & S & _).
  exists a1, tr1. split; [exact E|]. split; [exact Ha|]. split; [exact Hc|].
  split; [now apply count_no_sleep|apply poll_ms_of_floor].
Qed.

(** X14. As long as the sleep accepts the interval, the polling loop,
    once entered with its flag set, does not end by itself: run alone for
    any number of turns it completes them all, sleeping once per turn and
    leaving its flag set.  While the session is connected with a client
    each turn publishes one result per register; while it is not, the
    loop does nothing but sleep.  When the sleep refuses the interval the
    loop ends in its first turn with what the sleep raised. *)
Theorem poll_loop_keeps_going (n : nat) :
  forall a : App C,
    polling a = true ->
    (time_sleep (poll_ms_of (poll_ms_var a)) = Ret () ->
     exists a' tr,
       _poll_loop n a = (Ret (), a', tr) /\
       a' = set_client (client a') a /\
       polling a' = true /\
       count is_sleep tr = n /\
       (connected a = true -> is_Some (client a) ->
          length (published tr) = (n * length (regs a))%nat) /\
       (connected a = false \/ client a = None ->
          tr = replicate n (Sleep (poll_ms_of (poll_ms_var a))))) /\
    (forall e, time_sleep (poll_ms_of (poll_ms_var a)) = Exn e ->
     exists a' tr,
       _poll_loop (S n) a = (Exn e, a', tr) /\ count is_sleep tr = 1%nat).
Proof.
  induction n as [|n IH]; intros a Hp.
  - split.
    + intros _. exists a, []. repeat split; try reflexivity; try assumption.
      now destruct a.
    + intros e He.
      destruct (poll_loop_body_detail a) as (a1 & tr1 & E & _ & _ & S & _).
      exists a1, (tr1 ++ [Sleep (poll_ms_of (poll_ms_var a))]). split.
      * cbn [_poll_loop]. run_M. rewrite Hp, E, He. reflexivity.
      * rewrite count_app, (count_no_sleep _ S). reflexivity.
  - destruct (poll_loop_body_detail a) as (a1 & tr1 & E & Ha & Hc & S & _ & Hgo).
    assert (Hp1 : polling a1 = true) by (rewrite Ha; exact Hp).
    assert (Hregs : regs a1 = regs a) by (rewrite Ha; reflexivity).
    assert (Hconn : connected a1 = connected a) by (rewrite Ha; reflexivity).
    assert (Hms : poll_ms_var a1 = poll_ms_var a) by (rewrite Ha; reflexivity).
    split.
    + intros Hsl.
      destruct (IH a1 Hp1) as [IHok _]. rewrite Hms in IHok.
      destruct (IHok Hsl) as (a2 & tr2 & E2 & Ha2 & Hp2 & S2 & Hpub & Hidle).
      exists a2, ((tr1 ++ [Sleep (poll_ms_of (poll_ms_var a))]) ++ tr2).
      split.
      { cbn [_poll_loop]. run_M. rewrite Hp, E, Hsl, E2. reflexivity. }
      split; [rewrite Ha2, Ha; reflexivity|]. split; [exact Hp2|]. split.
      { rewrite !count_app, (count_no_sleep _ S), S2. cbn. lia. }
      split.
      * intros Hco Hcl.
        rewrite Hco, bool_decide_eq_true_2 in Hgo by exact Hcl. cbn in Hgo.
        rewrite !published_app, !length_app, Hgo. cbn.
        rewrite Hpub; [rewrite Hregs; lia | congruence | now apply Hc].
      * intros Hidle'.
        assert (Hoff : connected a && bool_decide (is_Some (client a)) = false).
        { destruct Hidle' as [->|Hn]; [reflexivity|].
          rewrite bool_decide_eq_false_2; [apply andb_false_r|].
          rewrite Hn. intros [? ?]; discriminate. }
        rewrite Hoff in Hgo. destruct Hgo as [-> ->]. cbn.
        rewrite Hidle by exact Hidle'. reflexivity.
    + intros e He.
      exists a1, (tr1 ++ [Sleep (poll_ms_of (poll_ms_var a))]). split.
      * cbn [_poll_loop]. run_M. rewrite Hp, E, He. reflexivity.
      * rewrite count_app, (count_no_sleep _ S). reflexivity.
Qed.

End PollDetail.

(** ** From a poll cycle to the table *)

(** The lines of the table after the callbacks [cbs] have run. *)
Lemma run_callbacks_rows (cbs : list (nat * val_txt)) :
  forall rows : list row,
    run_callbacks cbs (tree_from 0 rows)
      = Some (tree_from 0
                (foldl (fun (rows : list row) cb =>
                          alter (Tree.set_value (snd cb)) (fst cb) rows)
                       rows cbs)).
Proof.
  induction cbs as [|[k v] cbs IH]; intros rows; [reflexivity|].
  cbn [run_callbacks foldl fst snd]. rewrite set_tree_value_rows. apply IH.
Qed.

(** Callbacks for the indices [j], [j+1], ... in this order: each line
    from [j] on receives the value of its own callback, earlier lines
    are not touched. *)
Lemma callbacks_in_order (cbs : list (nat * val_txt)) :
  forall (j : nat) (rows : list row),
    map fst cbs = seq j (length cbs) ->
    let rows' := foldl (fun (rows : list row) cb =>
                          alter (Tree.set_value (snd cb)) (fst cb) rows)
                       rows cbs in
    (forall k idx v, cbs !! k = Some (idx, v) ->
       idx = (j + k)%nat /\
       rows' !! idx = Tree.set_value v <$> rows !! idx) /\
    (forall i, (i < j)%nat -> rows' !! i = rows !! i).
Proof.
  induction cbs as [|[k0 v0] cbs IH]; intros j rows Hseq rows'.
  - split; [intros k idx v Hk; discriminate|reflexivity].
  - cbn in Hseq. injection Hseq as -> Hseq.
    destruct (IH (S j) (alter (Tree.set_value v0) j rows) Hseq) as [IH1 IH2].
    subst rows'. cbn [foldl fst snd]. split.
    + intros [|k] idx v Hk.
      * injection Hk as <- <-. split; [lia|].
        rewrite IH2 by lia. apply list_lookup_alter_eq.
      * destruct (IH1 k idx v Hk) as [-> Hrow]. split; [lia|].
        rewrite Hrow. now rewrite list_lookup_alter_ne by lia.
    + intros i Hi. rewrite IH2 by lia. now rewrite list_lookup_alter_ne by lia.
Qed.

Section Table.

Context {C : Type} `{ModbusSerialClient C} `{Python}.

(** X11. The table is rendered, a poll cycle runs, and the main loop runs
    the callbacks the cycle queued: nothing fails, and the line of every
    register then shows that register's name, function code, offset,
    address and unit, with the result published for it in the VALUE
    cell. *)
Theorem poll_once_fills_table (a : App C) (t0 : tree) :
  let cbs := published (snd (_poll_once a)) in
  exists t t',
    _render_regs (regs a) t0 = Some t /\
    run_callbacks cbs t = Some t' /\
    map fst t' = map pretty (seq 0 (length (regs a))) /\
    forall i reg, regs a !! i = Some reg ->
      exists v,
        cbs !! i = Some (i, v) /\
        t' !! i = Some (pretty i,
                        MkRow (RegItem.name reg) (RegItem.fc reg)
                          (RegItem.offset reg) (RegItem.offset reg - 1)
                          (RegItem.unit reg) (Some v)).
Proof.
  intros cbs. subst cbs.
  destruct (poll_once_completes a) as (a1 & tr & E & P & _). rewrite E. cbn [snd].
  assert (Hlen : length (published tr) = length (regs a))
    by (rewrite <- (length_map fst), P; apply length_seq).
  rewrite <- Hlen in P.
  destruct (callbacks_in_order (published tr) 0%nat (map row_of (regs a)) P)
    as [Hrows _].
  exists (tree_from 0 (map row_of (regs a))),
    (tree_from 0
       (foldl (fun (rows : list row) cb =>
                 alter (Tree.set_value (snd cb)) (fst cb) rows)
              (map row_of (regs a)) (published tr))).
  split; [exact (render_from_rows (regs a) [])|].
  split; [apply run_callbacks_rows|]. split.
  - cbn [app]. rewrite tree_from_ids. f_equal. f_equal.
    rewrite <- (length_map row_of (regs a)).
    clear. generalize (map row_of (regs a)) as rows.
    induction (published tr) as [|cb cbs IH]; intros rows; cbn [foldl].
    + reflexivity.
    + rewrite IH, length_alter. reflexivity.
  - intros i reg Hi.
    assert (Hlt : (i < length (published tr))%nat)
      by (rewrite Hlen; eapply lookup_lt_Some; eassumption).
    destruct (lookup_lt_is_Some_2 _ _ Hlt) as [[idx v] Hcb].
    destruct (Hrows i idx v Hcb) as [-> Hrow]. cbn [Nat.add] in *.
    exists v. split; [exact Hcb|]. cbn [app].
    rewrite tree_from_lookup, Hrow, lookup_map, Hi. reflexivity.
Qed.

End Table.

(** ** Connect, path by path *)

Section ConnectPaths.

Context {C : Type} `{ModbusSerialClient C} `{Python}.

Ltac run_M :=
  unfold mbind, M_bind, bind, try_except, ret, lift, emit, after, _log,
    get, modify, showerror, raise in *; cbn [fst snd app] in *.

(** From a session that is not connected [_connect] ends in one of three
    ways: an error box and nothing else; a client built and a port that
    does not open; a client built, the port open and the thread started. *)
Lemma connect_paths (a : App C) :
  connected a = false ->
  (exists msg, _connect a = (Ret (), a, [ShowError "Error" msg]) /\
               (Py.strip (port_var a) = "" \/ settings_refused a)) \/
  (exists baud slave,
     let port := Py.strip (port_var a) in
     let parity := Py.upper (Py.strip (parity_var a)) in
     port <> "" /\ builtin_int (baud_var a) = Ret baud /\
     builtin_int (slave_var a) = Ret slave /\ 1 <= slave <= 247 /\
     parity ∈ ["E"; "O"; "N"] /\
     _connect a
       = let '(ok, c) := connect (new_client port baud parity) in
         if ok then
           (Ret (), opened a c port baud parity slave,
            [NewClient port baud parity; Connect true;
             LogLine "Connected OK."; ThreadStart])
         else
           (Ret (), set_client None a,
            [NewClient port baud parity; Connect false;
             ShowError "Error"
               "Failed to open port. Check USB-RS485 driver/port."])).
Proof.
  intros Hconn. unfold _connect, settings_refused. run_M. rewrite Hconn.
  case_bool_decide as Hport.
  { left. eexists. split; [reflexivity|]. now left. }
  destruct (builtin_int (baud_var a)) as [baud|e] eqn:Hbaud; cbn.
  2:{ left. eexists. split; [reflexivity|]. right. now left. }
  destruct (builtin_int (slave_var a)) as [slave|e] eqn:Hslave; cbn.
  2:{ left. eexists. split; [reflexivity|]. right. right. now left. }
  destruct ((1 <=? slave) && (slave <=? 247)) eqn:Hrange; cbn.
  2:{ left. eexists. split; [reflexivity|]. right. right. right. left.
      exists slave. split; [reflexivity|]. intros [H1 H2].
      apply Z.leb_le in H1. apply Z.leb_le in H2. rewrite H1, H2 in Hrange.
      discriminate. }
  unfold valid_parity. case_bool_decide as Hpar; cbn.
  2:{ left. eexists. split; [reflexivity|]. right. right. right. now right. }
  right. exists baud, slave. cbn zeta.
  apply andb_true_iff in Hrange as [H1 H2].
  apply Z.leb_le in H1. apply Z.leb_le in H2.
  split; [exact Hport|]. split; [reflexivity|]. split; [reflexivity|].
  split; [lia|]. split; [exact Hpar|].
  unfold client_connect. cbn.
  destruct (connect (new_client _ baud _)) as [[|] c]; cbn; reflexivity.
Qed.

(** X15. With a port selected, a baud field and a slave-id field in
    which [int] reads a number, the slave id in 1..247, and a legal
    parity, [_connect] builds the client for the trimmed port name, the
    baud rate read and the upper-cased parity.
    When the port opens the session is connected and polling, the
    buttons are swapped and one thread is started; when it does not, the
    client is dropped, an error box is shown, no thread is started and
    the session stays as it was. *)
Theorem connect_with_good_settings (a : App C) (baud slave : Z) :
  connected a = false ->
  Py.strip (port_var a) <> "" ->
  builtin_int (baud_var a) = Ret baud ->
  builtin_int (slave_var a) = Ret slave ->
  1 <= slave <= 247 ->
  Py.upper (Py.strip (parity_var a)) ∈ ["E"; "O"; "N"] ->
  let port := Py.strip (port_var a) in
  let parity := Py.upper (Py.strip (parity_var a)) in
  let opening := connect (new_client port baud parity) in
  let x := _connect a in
  let a' := snd (fst x) in
  fst (fst x) = Ret () /\
  (snd x) !! 0%nat = Some (NewClient port baud parity) /\
  (snd x) !! 1%nat = Some (Connect (fst opening)) /\
  connected a' = fst opening /\
  polling a' = (fst opening || polling a) /\
  client a' = (if fst opening then Some (snd opening) else None) /\
  count is_thread_start (snd x) = (if fst opening then 1 else 0)%nat /\
  count is_show_error (snd x) = (if fst opening then 0 else 1)%nat /\
  connect_btn a' = (if fst opening then Disabled else connect_btn a) /\
  disconnect_btn a' = (if fst opening then Normal else disconnect_btn a).
Proof.
  intros Hconn Hport Hbaud Hslave Hrange Hpar port parity opening x a'.
  destruct (connect_paths a Hconn) as [(msg & _ & [Hp|Hbad])|Hgood].
  - contradiction.
  - exfalso. destruct Hbad as [Hb|[Hb|[(n & Hn & Hb)|Hb]]].
    + rewrite Hbaud in Hb. discriminate.
    + rewrite Hslave in Hb. discriminate.
    + rewrite Hslave in Hn. injection Hn as <-. contradiction.
    + contradiction.
  - destruct Hgood as (baud' & slave' & _ & Hb' & Hs' & _ & _ & E).
    rewrite Hbaud in Hb'. injection Hb' as <-.
    rewrite Hslave in Hs'. injection Hs' as <-.
    subst a' x. rewrite E. fold port parity opening.
    destruct opening as [[|] c] eqn:Ho; cbn; rewrite ?Hconn; repeat split.
Qed.

(** X16. [_connect] never raises.  On a connected session it does
    nothing at all.  Otherwise it starts a polling thread exactly when it
    ends connected, never more than one, and it tries to open at most
    one port. *)
Theorem connect_starts_thread_iff_connected (a : App C) :
  let x := _connect a in
  let a' := snd (fst x) in
  fst (fst x) = Ret () /\
  (connected a = true -> a' = a /\ snd x = []) /\
  (connected a = false ->
     count is_thread_start (snd x) = (if connected a' then 1 else 0)%nat /\
     polling a' = (connected a' || polling a) /\
     (connected a' = true -> is_Some (client a')) /\
     (length (reads (snd x)) = 0)%nat).
Proof.
  intros x a'. subst a' x. destruct (connected a) eqn:Hconn.
  - unfold _connect. run_M. rewrite Hconn. cbn.
    split; [reflexivity|]. split; [split; reflexivity|discriminate].
  - destruct (connect_paths a Hconn) as [(msg & E & _)|(baud & slave & Hgood)].
    + rewrite E. cbn. rewrite Hconn. split; [reflexivity|].
      split; [discriminate|]. intros _. repeat split. discriminate.
    + cbn zeta in Hgood. destruct Hgood as (_ & _ & _ & _ & _ & E). rewrite E.
      destruct (connect _) as [[|] c]; cbn; rewrite ?Hconn.
      * split; [reflexivity|]. split; [discriminate|]. intros _.
        repeat split. intros _. eexists; reflexivity.
      * split; [reflexivity|]. split; [discriminate|]. intros _.
        repeat split. discriminate.
Qed.

End ConnectPaths.

(** ** What every sequence of presses and polls preserves *)

Section Sessions.

Context {C : Type} `{ModbusSerialClient C} `{Python}.

Ltac run_M :=
  unfold mbind, M_bind, bind, try_except, ret, lift, emit, after, _log,
    get, modify, showerror, raise in *; cbn [fst snd app] in *.

(** What [_disconnect] does, for any client: it returns normally even
    when [close] raises, and closes a client exactly when there is one. *)
Lemma disconnect_result (a : App C) :
  exists tr,
    _disconnect a
      = (Ret (),
         set_status_var "Not connected"
           (set_buttons Normal Disabled
              (set_connected false (set_client None (set_polling false a)))),
         tr) /\
    count is_close tr = (match client a with Some _ => 1 | None => 0 end)%nat /\
    reads tr = [] /\
    count is_thread_start tr = 0%nat.
Proof.
  unfold _disconnect, disconnect_signal, disconnect_close. run_M.
  destruct a as [[c|] ? ? ? ? ? ? ? ? ? ? ? ? ?]; cbn.
  - destruct (close c) as [o c']; cbn. eexists. repeat split.
  - eexists. repeat split.
Qed.

Lemma connect_consistent (a : App C) :
  consistent a -> consistent (snd (fst (_connect a))).
Proof.
  intros Hc. destruct (connected a) eqn:Hconn.
  - unfold _connect. run_M. rewrite Hconn. exact Hc.
  - destruct (connect_paths a Hconn) as [(msg & E & _)|(baud & slave & Hgood)].
    + rewrite E. exact Hc.
    + cbn zeta in Hgood. destruct Hgood as (_ & _ & _ & _ & _ & E). rewrite E.
      destruct Hc as (Hp & Hcl & Hb1 & Hb2 & Hst). rewrite Hconn in *.
      destruct (connect _) as [[|] c]; cbn.
      * unfold consistent; cbn. repeat split; try discriminate.
        intros _. eexists; reflexivity.
      * unfold consistent; cbn. rewrite Hconn. repeat split; auto; try discriminate.
        intros [? ?]; discriminate.
Qed.

Lemma run_action_consistent (x : action) (a : App C) :
  consistent a -> consistent (fst (run_action x a)).
Proof.
  intros Hc. destruct x as [| |comports|]; cbn [run_action].
  - pose proof (connect_consistent a Hc) as Hc'.
    now destruct (_connect a) as [[r a'] tr].
  - destruct (disconnect_result a) as (tr & E & _). rewrite E. cbn.
    unfold consistent; cbn. repeat split; try discriminate.
    intros [? ?]; discriminate.
  - destruct (refresh_ports_result comports a) as (sel & line & E & _).
    rewrite E. cbn. exact Hc.
  - destruct (polling a); [|exact Hc].
    destruct (poll_loop_body_detail a) as (a1 & tr1 & E & Ha & Hcl & _).
    rewrite E. cbn. rewrite Ha. destruct Hc as (Hp & Hcl' & Hb1 & Hb2 & Hst).
    unfold consistent; cbn. repeat split; auto.
    + intros Hco. apply Hcl, Hcl'. exact Hco.
    + intros Hs. apply Hcl'. apply Hcl. rewrite Ha. exact Hs.
Qed.

(** X17. Whatever the user presses (Connect, Disconnect, Refresh) and
    however the polling thread's turns fall in between, the fields of the
    object stay in step: the polling flag equals the connected flag, a
    client is held exactly while connected, Connect is disabled and
    Disconnect enabled exactly while connected, and the status line reads
    "Not connected" whenever the session is not connected. *)
Theorem session_stays_consistent (xs : list action) :
  forall a : App C, consistent a -> consistent (fst (run_actions xs a)).
Proof.
  induction xs as [|x xs IH]; intros a Hc; [exact Hc|].
  cbn [run_actions]. pose proof (run_action_consistent x a Hc) as Hc'.
  destruct (run_action x a) as [a' tr]. cbn in Hc'.
  specialize (IH a' Hc'). destruct (run_actions xs a') as [a'' tr'].
  exact IH.
Qed.

(** X18. From a consistent session that is not connected, Connect
    followed by Disconnect gives back the object with every field as it
    was but [poll_thread]: that field is as before when the settings were
    refused or the port did not open, and when the session ran it still
    holds the thread that was started, which Disconnect never clears.
    Disconnect closes a client exactly when Connect had opened the
    port. *)
Theorem connect_disconnect_round_trip (a : App C) :
  consistent a ->
  connected a = false ->
  let x := _connect a in
  let y := _disconnect (snd (fst x)) in
  snd (fst y) = set_poll_thread (poll_thread (snd (fst x))) a /\
  poll_thread (snd (fst x))
    = (if connected (snd (fst x))
       then Some (match poll_thread a with Some n => S n | None => O end)
       else poll_thread a) /\
  fst (fst y) = Ret () /\
  count is_close (snd y) = (if connected (snd (fst x)) then 1 else 0)%nat.
Proof.
  intros Hc Hconn x y. subst y.
  destruct (disconnect_result (snd (fst x))) as (tr & E & Hclose & _).
  rewrite E. cbn [fst snd]. rewrite Hclose.
  pose proof (connect_consistent a Hc) as Hc'. fold x in Hc'.
  assert (Hback : set_status_var "Not connected"
                    (set_buttons Normal Disabled
                       (set_connected false
                          (set_client None (set_polling false (snd (fst x))))))
                  = set_poll_thread (poll_thread (snd (fst x))) a /\
                  poll_thread (snd (fst x))
                  = (if connected (snd (fst x))
                     then Some (match poll_thread a with Some n => S n | None => O end)
                     else poll_thread a)).
  { destruct Hc as (Hp & Hcl & Hb1 & Hb2 & Hst). rewrite Hconn in *.
    assert (Hnone : client a = None).
    { destruct (client a) eqn:Hca; [|reflexivity].
      assert (false = true) by (apply Hcl; eexists; reflexivity). discriminate. }
    subst x.
    destruct (connect_paths a Hconn) as [(msg & E' & _)|(baud & slave & Hgood)].
    - rewrite E'. cbn. rewrite Hconn. split; [|reflexivity].
      destruct a; cbn in *. rewrite Hst by reflexivity. now subst.
    - cbn zeta in Hgood. destruct Hgood as (_ & _ & _ & _ & _ & E'). rewrite E'.
      destruct (connect _) as [[|] c]; cbn; rewrite ?Hconn;
        (split; [|reflexivity]);
        destruct a; cbn in *; rewrite Hst by reflexivity; now subst. }
  destruct Hback as [Hback Hthread].
  split; [exact Hback|]. split; [exact Hthread|]. split; [reflexivity|].
  destruct Hc' as (_ & Hcl' & _).
  destruct (connected (snd (fst x))) eqn:Hco.
  - destruct (proj1 Hcl' eq_refl) as [c ->]. reflexivity.
  - destruct (client (snd (fst x))) eqn:Hcx; [|reflexivity].
    assert (false = true) by (apply Hcl'; eexists; reflexivity). discriminate.
Qed.

(** X19. [_disconnect] never raises, also when closing the client
    raises; it closes the client once when there is one and makes no
    register read; it leaves the session not connected, not polling and
    without client.  Pressed again it changes nothing and closes
    nothing. *)
Theorem disconnect_twice (a : App C) :
  let x := _disconnect a in
  let a1 := snd (fst x) in
  fst (fst x) = Ret () /\
  count is_close (snd x) = (match client a with Some _ => 1 | None => 0 end)%nat /\
  reads (snd x) = [] /\
  (client a1 = None /\ connected a1 = false /\ polling a1 = false) /\
  consistent a1 /\
  _disconnect a1 = (Ret (), a1, [Sleep 100; LogLine "Disconnected."]).
Proof.
  intros x a1. subst a1 x.
  destruct (disconnect_result a) as (tr & E & Hclose & Hreads & _).
  rewrite E. cbn [fst snd].
  split; [reflexivity|]. split; [exact Hclose|]. split; [exact Hreads|].
  split; [repeat split|]. split.
  - unfold consistent; cbn. repeat split; try discriminate.
    intros [? ?]; discriminate.
  - unfold _disconnect, disconnect_signal, disconnect_close. run_M.
    destruct a; reflexivity.
Qed.

End Sessions.

(** ** The polling threads after Disconnect *)

Section AfterDisconnect.

Context {C : Type} `{ModbusSerialClient C} `{Python}.

Ltac run_M :=
  unfold mbind, M_bind, bind, try_except, ret, lift, emit, after, _log,
    get, modify, showerror, raise in *; cbn [fst snd app] in *.

(** With the flag cleared a thread whose sleep is over leaves the loop,
    without touching the object or making any call. *)
Lemma run_pollers_stopped (t : Z) (a : App C) (ths : list thread) :
  polling a = false ->
  Forall (fun th => in_cycle th = false) ths ->
  run_pollers t a ths
    = (a,
       map (fun th => match th with
                      | Sleeping w => if w <=? t then Exited else th
                      | _ => th
                      end) ths,
       []).
Proof.
  intros Hp Hths. induction Hths as [|th ths Hth _ IH]; [reflexivity|].
  cbn [run_pollers map].
  assert (E : run_poller t a th
              = (a, match th with
                    | Sleeping w => if w <=? t then Exited else th
                    | _ => th
                    end, [])).
  { destruct th as [w| |]; cbn; [|discriminate Hth|reflexivity].
    destruct (w <=? t); [rewrite Hp|]; reflexivity. }
  rewrite E, IH. reflexivity.
Qed.

Lemma advance_stopped (n : nat) :
  forall s : system C,
    polling (app s) = false ->
    Forall (fun th => in_cycle th = false) (pollers s) ->
    advance n s
      = MkSystem (app s) (now s + Z.of_nat n)
          (map (fun th => match th with
                          | Sleeping w =>
                              if (w <=? now s + Z.of_nat n) && (0 <? Z.of_nat n)
                              then Exited else th
                          | _ => th
                          end) (pollers s))
          (history s).
Proof.
  induction n as [|n IH]; intros s Hp Hths.
  - destruct s as [a t ths h]; cbn [advance app now pollers history].
    f_equal; [lia|]. rewrite <- (map_id ths) at 1. apply map_ext.
    intros [w| |]; try reflexivity. now rewrite andb_false_r.
  - cbn [advance]. unfold tick. rewrite run_pollers_stopped by assumption.
    rewrite IH; cbn [app now pollers history]; [|exact Hp|].
    + rewrite app_nil_r, map_map. f_equal; [lia|]. apply map_ext.
      intros [w| |]; try reflexivity.
      repeat match goal with
             | |- context [?x <=? ?y] => destruct (Z.leb_spec x y)
             | |- context [?x <? ?y] => destruct (Z.ltb_spec x y)
             end; cbn [andb]; try reflexivity; lia.
    + apply Forall_map. eapply Forall_impl; [exact Hths|].
      intros [w| |] Hth; cbn in *; try assumption.
      now destruct (w <=? now s + 1).
Qed.

Lemma all_exited (g : thread -> thread) (ths : list thread) :
  Forall (fun th => g th = Exited) ths ->
  length (filter (fun th => alive th = true) (map g ths)) = 0%nat.
Proof.
  induction 1 as [|th ths Hth _ IH]; [reflexivity|].
  cbn [map]. rewrite filter_cons, Hth. cbn.
  rewrite decide_False by discriminate. exact IH.
Qed.

(** X20. A polling thread that is asleep when Disconnect is pressed
    leaves its loop at the end of that sleep, if no Connect is pressed in
    the meantime, and does nothing before.  So when no thread is inside
    a cycle at the press, once every sleep is over no thread is left, no
    register has been read since the press, and the object is as
    Disconnect left it.  (A thread inside a cycle at the press is another
    matter: it goes on reading to the end of the cycle, see
    [reading_thread_goes_on].) *)
Theorem pollers_exit_after_disconnect (s : system C) (n : nat) :
  Forall (fun th => th = Exited \/
                    exists w, th = Sleeping w /\ w <= now s + 100 + Z.of_nat n)
    (pollers s) ->
  let s1 := press_disconnect s in
  let s2 := advance n s1 in
  live_pollers s2 = 0%nat /\
  app s2 = app s1 /\
  connected (app s2) = false /\
  history s2 = history s1 /\
  reads (history s1) = reads (history s).
Proof.
  intros Hw s1 s2. subst s2 s1. unfold press_disconnect.
  assert (Hrest : Forall (fun th => in_cycle th = false) (pollers s)).
  { eapply Forall_impl; [exact Hw|]. now intros th [->|(w & -> & _)]. }
  assert (E1 : main_runs disconnect_signal s
               = MkSystem (set_polling false (app s)) (now s) (pollers s)
                   (history s ++ [])) by reflexivity.
  rewrite E1. rewrite (advance_stopped 100) by (try reflexivity; exact Hrest).
  cbn [app now pollers history]. unfold main_runs.
  cbn [app now pollers history].
  assert (E2 : exists a2 tr2,
             disconnect_close (set_polling false (app s)) = (Ret (), a2, tr2) /\
             polling a2 = false /\ connected a2 = false /\ reads tr2 = []).
  { unfold disconnect_close. run_M.
    destruct (client (set_polling false (app s))) as [c|]; cbn.
    - destruct (close c) as [o c']. cbn. eexists _, _. repeat split.
    - eexists _, _. repeat split. }
  destruct E2 as (a2 & tr2 & E2 & Hp2 & Hc2 & Hr2). rewrite E2.
  rewrite advance_stopped; cbn [app now pollers history]; [|exact Hp2|].
  2:{ apply Forall_map. eapply Forall_impl; [exact Hw|].
      intros th [->|(w & -> & _)]; [reflexivity|].
      now destruct ((w <=? now s + Z.of_nat 100) && (0 <? Z.of_nat 100)). }
  unfold live_pollers. cbn [pollers].
  split; [|split; [reflexivity|split; [exact Hc2|split; [reflexivity|]]]].
  - rewrite map_map. clear E1 E2. apply all_exited.
    eapply Forall_impl; [exact Hw|]. intros th [->|(w & -> & Hth)]; [reflexivity|].
    change (Z.of_nat 100) with 100.
    repeat (match goal with
            | |- context [?x <=? ?y] => destruct (Z.leb_spec x y)
            | |- context [?x <? ?y] => destruct (Z.ltb_spec x y)
            end; cbn [andb]); try reflexivity; lia.
  - rewrite !reads_app, Hr2. cbn. now rewrite !app_nil_r.
Qed.

(** X25. [_disconnect] returns 100 ms after it was entered, with the
    client dropped, whatever the polling threads are doing: a thread that
    is asleep until a later instant is still alive and asleep when
    [_disconnect] returns. *)
Theorem disconnect_does_not_wait (s : system C) :
  Forall (fun th => exists w, th = Sleeping w /\ now s + 100 < w) (pollers s) ->
  let s' := press_disconnect s in
  now s' = now s + 100 /\ pollers s' = pollers s /\
  live_pollers s' = length (pollers s) /\
  client (app s') = None /\ connected (app s') = false.
Proof.
  intros Hs s'. destruct (pollers_outlive_disconnect s Hs) as (Hn & Hp & Hc & Hco).
  fold s' in Hn, Hp, Hc, Hco. repeat split; try assumption.
  unfold live_pollers. rewrite Hp. clear -Hs.
  induction Hs as [|th ths (w & -> & _) _ IH]; [reflexivity|].
  rewrite filter_cons_True by reflexivity. cbn [length]. now rewrite IH.
Qed.

End AfterDisconnect.

(** ** More on the decoder *)

(** X21. Word swap is the exchange of the two words and nothing more:
    decoding with the flag in one position is decoding the list with its
    first two words exchanged and the flag in the other position. *)
Theorem decode_float32_swap_exchanges (r0 r1 : Z) (rest : list Z) (sw : bool) :
  decode_float32 (Some (r0 :: r1 :: rest)) (negb sw)
    = decode_float32 (Some (r1 :: r0 :: rest)) sw.
Proof.
  rewrite !decode_float32_pair. do 3 f_equal.
  unfold reassemble. now destruct sw.
Qed.

(** X22. Nothing is lost between two 16-bit words and the decoded
    number, unless the words spell a signalling NaN: for any other pair
    the high and low halves of the decoded number, packed again, are the
    two words, and two different pairs that are not signalling NaNs never
    decode to Python floats with the same 64 bits. *)
Theorem decode_float32_inverse (r0 r1 : Z) (x : float32) :
  0 <= r0 < 65536 ->
  0 <= r1 < 65536 ->
  Struct.f32_is_signalling (Struct.f32_fields (r0 * 65536 + r1)) = false ->
  decode_float32 (Some [r0; r1]) false = Ret (Some x) ->
  Z.shiftr (Struct.f32_to_bits x) 16 = r0 /\
  Z.land (Struct.f32_to_bits x) 65535 = r1 /\
  (forall r0' r1' x', 0 <= r0' < 65536 -> 0 <= r1' < 65536 ->
     Struct.f32_is_signalling (Struct.f32_fields (r0' * 65536 + r1')) = false ->
     decode_float32 (Some [r0'; r1']) false = Ret (Some x') ->
     float_bits x' = float_bits x ->
     r0' = r0 /\ r1' = r1).
Proof.
  intros H0 H1 Hq E.
  assert (Hword : forall a b, 0 <= a < 65536 -> 0 <= b < 65536 ->
            reassemble a b false = a * 65536 + b /\
            0 <= a * 65536 + b < 2 ^ 32).
  { intros a b Ha Hb. rewrite reassemble_value, !Z.mod_small by lia.
    split; [reflexivity|]. change (2 ^ 32) with 4294967296. lia. }
  destruct (Hword r0 r1 H0 H1) as [Er Hr].
  rewrite decode_float32_pair, Er in E. injection E as <-.
  assert (Hx : Struct.f32_to_bits (Struct.f32_of_bits (r0 * 65536 + r1))
               = r0 * 65536 + r1)
    by (rewrite f32_bits_roundtrip, Hq by exact Hr; reflexivity).
  split; [|split].
  - rewrite Hx, Z.shiftr_div_pow2 by lia. change (2 ^ 16) with 65536.
    Z.div_mod_to_equations; lia.
  - rewrite Hx, land_65535_mod. Z.div_mod_to_equations; lia.
  - intros r0' r1' x' H0' H1' Hq' E' Ebits.
    destruct (Hword r0' r1' H0' H1') as [Er' Hr'].
    rewrite decode_float32_pair, Er' in E'. injection E' as <-.
    pose proof (float_bits_tells_word _ _ Hr' Hr Hq' Hq Ebits). lia.
Qed.

Lemma decode_float32_inverse_witness :
  0 <= 0x4248 < 65536 /\ 0 <= 0xF5C3 < 65536 /\
  Struct.f32_is_signalling (Struct.f32_fields (0x4248 * 65536 + 0xF5C3)) = false /\
  decode_float32 (Some [0x4248; 0xF5C3]) false
    = Ret (Some (MkFloat32 false 132 4781507)) /\
  Z.shiftr (Struct.f32_to_bits (MkFloat32 false 132 4781507)) 16 = 0x4248 /\
  Z.land (Struct.f32_to_bits (MkFloat32 false 132 4781507)) 65535 = 0xF5C3.
Proof.
  assert (H0 : 0 <= 0x4248 < 65536) by lia.
  assert (H1 : 0 <= 0xF5C3 < 65536) by lia.
  assert (Hq : Struct.f32_is_signalling
                 (Struct.f32_fields (0x4248 * 65536 + 0xF5C3)) = false)
    by reflexivity.
  assert (E : decode_float32 (Some [0x4248; 0xF5C3]) false
              = Ret (Some (MkFloat32 false 132 4781507))) by reflexivity.
  destruct (decode_float32_inverse _ _ _ H0 H1 Hq E) as (Ha & Hb & _).
  split; [exact H0|]. split; [exact H1|]. split; [exact Hq|]. split; [exact E|].
  split; [exact Ha|exact Hb].
Defined.

(** Two different pairs of which one spells a signalling NaN, decoded to
    the same Python [float]. *)
Lemma decode_float32_signalling_pairs :
  Struct.f32_is_signalling (Struct.f32_fields (0x7FA0 * 65536 + 0x0001)) = true /\
  Struct.f32_is_signalling (Struct.f32_fields (0x7FE0 * 65536 + 0x0001)) = false /\
  decode_float32 (Some [0x7FA0; 0x0001]) false
    = decode_float32 (Some [0x7FE0; 0x0001]) false.
Proof. repeat split. Qed.

(** ** The properties above on the simulated meter *)

Lemma poll_once_cells_witness :
  let I := sim_client true meter in
  let a := running_app meter DEFAULT_REGS "1" "1000" in
  let tr := snd (_poll_once (H := I) a) in
  client a = Some (MkSim true meter) /\
  exists rd,
    reads tr !! 4%nat = Some rd /\
    published tr !! 4%nat
      = Some (4%nat,
              match rd with
              | Exn _ => EXC
              | Ret (ErrorReply _) => ERR
              | Ret (Registers (Some (r0 :: r1 :: _))) =>
                  Formatted
                    (f32_to_float
                       (Struct.f32_of_bits (reassemble r0 r1 (swap_words_var a)))
                     * RegItem.scale (RegItem.make 3001 "Current B" "A" 4))
              | Ret (Registers _) => NA
              end).
Proof.
  intros I a tr. split; [reflexivity|].
  apply (poll_once_cells (H := I) a (MkSim true meter)
           (fst (fst (_poll_once a))) (snd (fst (_poll_once a))) tr eq_refl).
  - subst tr. now destruct (_poll_once a) as [[r a'] t].
  - vm_compute. reflexivity.
Defined.

Lemma poll_once_requests_witness :
  let I := sim_client true meter in
  let a := running_app meter [RegItem.make 2699 "Active energy delivered (into load)" "kWh" 3;
                              RegItem.make 3053 "Active power A" "kW" 4;
                              RegItem.make 3059 "Active power total" "kW" 7]
             "17" "1000" in
  let tr := snd (_poll_once (H := I) a) in
  client a = Some (MkSim true meter) /\
  requests tr = [MkRequest true 2698 2 17; MkRequest false 3052 2 17;
                 MkRequest false 3058 2 17].
Proof.
  intros I a tr. split; [reflexivity|].
  assert (E : _poll_once a
              = (fst (fst (_poll_once a)), snd (fst (_poll_once a)), tr))
    by (subst tr; now destruct (_poll_once a) as [[r a'] t]).
  exact (poll_once_requests (H := I) a (MkSim true meter) _ _ tr eq_refl E).
Defined.

Lemma poll_once_log_witness :
  let I := sim_client true meter_timeout in
  let a := running_app meter_timeout DEFAULT_REGS "1" "1000" in
  let tr := snd (_poll_once (H := I) a) in
  client a = Some (MkSim true meter_timeout) /\
  log_lines tr = concat (zip_with log_of DEFAULT_REGS (reads tr)) /\
  length (log_lines tr) = count read_failed (reads tr).
Proof.
  intros I a tr. split; [reflexivity|].
  apply (poll_once_log (H := I) a (MkSim true meter_timeout)
           (fst (fst (_poll_once a))) (snd (fst (_poll_once a))) tr eq_refl).
  subst tr. now destruct (_poll_once a) as [[r a'] t].
Defined.

Lemma poll_once_without_client_witness :
  let I := sim_client true meter in
  let a : App SimClient := init_app DEFAULT_REGS "COM3" "19200" "E" "1" "1000" false in
  client a = None /\
  exists tr,
    _poll_once (H := I) a = (Ret (), a, tr) /\
    requests tr = [] /\
    published tr = zip (seq 0 23) (replicate 23 EXC) /\
    length (log_lines tr) = 23%nat.
Proof.
  intros I a. split; [reflexivity|].
  exact (poll_once_without_client (H := I) a eq_refl).
Defined.

(** An interval of 50 ms in the entry field, a field that is no number,
    and an interval of 10^13 ms, which the sleep refuses. *)
Lemma poll_interval_clamped_witness :
  let I := sim_client true meter in
  let a := running_app meter [power_total] "1" "50" in
  let b := running_app meter [power_total] "1" "1s" in
  let c := running_app meter [power_total] "1" "10000000000000" in
  poll_ms_of (poll_ms_var a) = 200 /\
  (exists a' tr,
     poll_loop_body (H := I) a = (Ret 200, a', tr ++ [Sleep 200]) /\
     count is_sleep tr = 0%nat) /\
  poll_ms_of (poll_ms_var b) = 1000 /\
  (exists c' tr,
     poll_loop_body (H := I) c
       = (Exn OverflowError, c', tr ++ [Sleep 10000000000000]) /\
     count is_sleep tr = 0%nat).
Proof.
  intros I a b c.
  destruct (poll_interval_clamped (H := I) a) as (_ & _ & Ha & Ea).
  destruct (poll_interval_clamped (H := I) b) as (Hb & _).
  destruct (poll_interval_clamped (H := I) c) as (_ & _ & _ & Ec).
  split; [exact (Ha eq_refl)|]. split; [exact Ea|].
  split; [exact Hb|exact Ec].
Defined.

(** A slave-id field that is no number. *)
Lemma poll_once_unparsable_slave_witness :
  let I := sim_client true meter in
  let a := running_app meter DEFAULT_REGS "abc" "1000" in
  let x := _poll_once (H := I) a in
  raises (builtin_int (slave_var a)) = true /\
  fst (fst x) = Ret () /\
  length (published (snd x)) = 23%nat /\
  read_slaves (snd x) = replicate 23 1 /\
  length (log_lines (snd x)) = 1%nat /\
  count is_show_error (snd x) = 0%nat.
Proof.
  intros I a x.
  assert (Hbad : raises (builtin_int (slave_var a)) = true) by reflexivity.
  assert (E : _poll_once (H := I) a = (fst (fst x), snd (fst x), snd x))
    by (subst x; now destruct (_poll_once _) as [[r a'] tr]).
  destruct (poll_once_unparsable_slave (H := I) a _ _ _ Hbad E)
    as (H1 & H2 & _ & H4 & H5 & _).
  destruct (H4 (ex_intro _ _ eq_refl)) as [H6 H7].
  split; [exact Hbad|]. split; [exact H1|]. split; [exact H2|].
  split; [exact H6|]. split; [|exact H5].
  rewrite H7. vm_compute. reflexivity.
Defined.

(** An interval of 250 ms, and one of 10^13 ms. *)
Lemma poll_loop_keeps_going_witness :
  let I := sim_client true meter in
  let a := running_app meter DEFAULT_REGS "1" "250" in
  let b := running_app meter DEFAULT_REGS "1" "10000000000000" in
  (polling a = true /\ time_sleep (poll_ms_of (poll_ms_var a)) = Ret ()) /\
  (exists a' tr,
     _poll_loop (H := I) 3 a = (Ret (), a', tr) /\
     a' = set_client (client a') a /\
     polling a' = true /\
     count is_sleep tr = 3%nat /\
     (connected a = true -> is_Some (client a) ->
        length (published tr) = (3 * length (regs a))%nat) /\
     (connected a = false \/ client a = None ->
        tr = replicate 3 (Sleep (poll_ms_of (poll_ms_var a))))) /\
  (polling b = true /\
   time_sleep (poll_ms_of (poll_ms_var b)) = Exn OverflowError) /\
  (exists b' tr,
     _poll_loop (H := I) 1 b = (Exn OverflowError, b', tr) /\
     count is_sleep tr = 1%nat).
Proof.
  intros I a b.
  assert (Ha : time_sleep (poll_ms_of (poll_ms_var a)) = Ret ()) by reflexivity.
  assert (Hb : time_sleep (poll_ms_of (poll_ms_var b)) = Exn OverflowError)
    by reflexivity.
  split; [split; [reflexivity|exact Ha]|].
  split; [exact (proj1 (poll_loop_keeps_going (H := I) 3 a eq_refl) Ha)|].
  split; [split; [reflexivity|exact Hb]|].
  exact (proj2 (poll_loop_keeps_going (H := I) 0 b eq_refl) OverflowError Hb).
Defined.

Lemma connect_with_good_settings_witness :
  let I := sim_client true meter in
  let a : App SimClient :=
    init_app DEFAULT_REGS " /dev/cu.usbserial-1420 " "9600" " n" "17" "1000" false in
  let x := _connect (H := I) a in
  (connected a = false /\ Py.strip (port_var a) <> "" /\
   builtin_int (baud_var a) = Ret 9600 /\ builtin_int (slave_var a) = Ret 17 /\
   1 <= 17 <= 247 /\ Py.upper (Py.strip (parity_var a)) ∈ ["E"; "O"; "N"]) /\
  (snd x) !! 0%nat = Some (NewClient "/dev/cu.usbserial-1420" 9600 "N") /\
  connected (snd (fst x)) = true /\
  count is_thread_start (snd x) = 1%nat.
Proof.
  intros I a x.
  assert (H1 : connected a = false) by reflexivity.
  assert (H2 : Py.strip (port_var a) <> "") by discriminate.
  assert (H3 : builtin_int (baud_var a) = Ret 9600) by reflexivity.
  assert (H4 : builtin_int (slave_var a) = Ret 17) by reflexivity.
  assert (H5 : 1 <= 17 <= 247) by lia.
  assert (H6 : Py.upper (Py.strip (parity_var a)) ∈ ["E"; "O"; "N"]).
  { change (Py.upper (Py.strip (parity_var a))) with "N".
    apply elem_of_cons; right. apply elem_of_cons; right.
    apply elem_of_cons; left. reflexivity. }
  split; [exact (conj H1 (conj H2 (conj H3 (conj H4 (conj H5 H6)))))|].
  destruct (connect_with_good_settings (H := I) (H0 := cpython) a 9600 17
              H1 H2 H3 H4 H5 H6)
    as (_ & Hn & _ & Hc & _ & _ & Ht & _).
  split; [exact Hn|]. split; [exact Hc|exact Ht].
Defined.

Lemma init_app_consistent (rs : list RegItem.t)
    (port baud parity slave poll_ms : string) (sw : bool) :
  @consistent SimClient (init_app rs port baud parity slave poll_ms sw).
Proof.
  unfold consistent; cbn. repeat split; try discriminate.
  intros [? ?]; discriminate.
Qed.

Lemma session_stays_consistent_witness :
  let I := sim_client true meter in
  let a : App SimClient := init_app DEFAULT_REGS "" "19200" "E" "1" "1000" false in
  let xs := [PressRefresh ["/dev/cu.usbserial-1420"]; PressConnect; PollTurn;
             PressConnect; PressDisconnect; PollTurn; PressConnect] in
  consistent a /\ consistent (fst (run_actions (H := I) xs a)).
Proof.
  intros I a xs.
  assert (Ha : consistent a) by apply init_app_consistent.
  split; [exact Ha|]. exact (session_stays_consistent (H := I) xs a Ha).
Defined.

Lemma connect_disconnect_round_trip_witness :
  let I := sim_client true meter in
  let a : App SimClient := init_app DEFAULT_REGS "COM3" "19200" "E" "1" "1000" false in
  let x := _connect (H := I) a in
  let y := _disconnect (H := I) (snd (fst x)) in
  (consistent a /\ connected a = false) /\
  snd (fst y) = set_poll_thread (Some 0%nat) a /\
  snd (fst y) <> a /\
  fst (fst y) = Ret () /\
  count is_close (snd y) = 1%nat.
Proof.
  intros I a x y.
  assert (Ha : consistent a) by apply init_app_consistent.
  split; [split; [exact Ha|reflexivity]|].
  destruct (connect_disconnect_round_trip (H := I) a Ha eq_refl)
    as (H1 & H2 & H3 & H4).
  split; [exact H1|]. split; [|split; [exact H3|exact H4]].
  intros Heq. apply (f_equal poll_thread) in Heq. discriminate Heq.
Defined.

(** The session of the simulated meter, 5 ms after Connect. *)
Lemma meter_session_poller :
  let I := sim_client true meter in
  let s := advance (H := I) 5 (press_connect (H := I) idle_system) in
  now s = 5 /\ pollers s = [Sleeping 1001].
Proof. vm_compute. split; reflexivity. Qed.

Lemma disconnect_does_not_wait_witness :
  let I := sim_client true meter in
  let s := advance (H := I) 5 (press_connect (H := I) idle_system) in
  let s' := press_disconnect (H := I) s in
  Forall (fun th => exists w, th = Sleeping w /\ now s + 100 < w) (pollers s) /\
  now s' = now s + 100 /\ pollers s' = pollers s /\
  live_pollers s' = length (pollers s) /\
  client (app s') = None /\ connected (app s') = false.
Proof.
  intros I s s'. destruct meter_session_poller as [Hn Hp]. fold I s in Hn, Hp.
  assert (Hs : Forall (fun th => exists w, th = Sleeping w /\ now s + 100 < w)
                 (pollers s)).
  { rewrite Hn, Hp. constructor; [|constructor].
    exists 1001. split; [reflexivity|lia]. }
  split; [exact Hs|]. exact (disconnect_does_not_wait (H := I) s Hs).
Defined.

Lemma pollers_exit_after_disconnect_witness :
  let I := sim_client true meter in
  let s := advance (H := I) 5 (press_connect (H := I) idle_system) in
  let s1 := press_disconnect (H := I) s in
  let s2 := advance (H := I) 900 s1 in
  Forall (fun th => th = Exited \/
                    exists w, th = Sleeping w /\ w <= now s + 100 + Z.of_nat 900)
    (pollers s) /\
  live_pollers s2 = 0%nat /\ app s2 = app s1 /\ connected (app s2) = false /\
  history s2 = history s1 /\ reads (history s1) = reads (history s).
Proof.
  intros I s s1 s2. destruct meter_session_poller as [Hn Hp]. fold I s in Hn, Hp.
  assert (Hs : Forall (fun th => th = Exited \/
                                 exists w, th = Sleeping w /\
                                           w <= now s + 100 + Z.of_nat 900)
                 (pollers s)).
  { rewrite Hn, Hp. constructor; [|constructor].
    right. exists 1001. split; [reflexivity|lia]. }
  split; [exact Hs|]. exact (pollers_exit_after_disconnect (H := I) s 900 Hs).
Defined.

(** A thread caught inside a cycle when Disconnect is pressed: with three
    registers of the 23 left to read it reads them, on the client that
    Disconnect has not closed yet, and goes to sleep; it is alive when
    Disconnect returns and leaves only when that sleep is over. *)
Lemma reading_thread_goes_on :
  let I := sim_client true meter in
  let s : system SimClient :=
    MkSystem (running_app meter DEFAULT_REGS "1" "1000") 0
      [Reading 1000 1 false 20] [] in
  let s1 := press_disconnect (H := I) s in
  polling (app s1) = false /\ client (app s1) = None /\
  length (reads (history s1)) = 3%nat /\
  map fst (published (history s1)) = [20; 21; 22]%nat /\
  pollers s1 = [Sleeping 1004] /\
  live_pollers (advance (H := I) 903 s1) = 1%nat /\
  live_pollers (advance (H := I) 904 s1) = 0%nat.
Proof. vm_compute. repeat split. Qed.

(** ** Start-up *)

Section Startup.

Context {C : Type} `{ModbusSerialClient C}.

Ltac run_M :=
  unfold mbind, M_bind, bind, try_except, ret, lift, emit, after, _log,
    get, modify, showerror, raise in *; cbn [fst snd app] in *.

Lemma init_result (comports : list string) :
  exists line,
    __init__ (C := C) comports
      = (set_port_var (default "" (head (list_serial_ports_preferred comports)))
           (init_app DEFAULT_REGS "" "19200" "E" "1" "1000" false),
         _render_regs DEFAULT_REGS [],
         [LogLine line; LogLine "Ready."]).
Proof.
  unfold __init__.
  destruct (refresh_ports_result (C := C) comports
              (init_app DEFAULT_REGS "" "19200" "E" "1" "1000" false))
    as (sel & line & E & ->).
  rewrite E. exists line. reflexivity.
Qed.

(** X23. However many ports are enumerated at start-up, the application
    comes up not connected and consistent, with the first port of the
    preferred list selected (none when there is no port), the table
    holding the 23 default registers with empty VALUE cells, and the
    shipped settings (19200 baud, parity E, slave 1) accepted by
    Connect. *)
Theorem init_ready (comports : list string) :
  let x := __init__ (C := C) comports in
  let a := fst (fst x) in
  consistent a /\ connected a = false /\ client a = None /\
  port_var a = default "" (head (list_serial_ports_preferred comports)) /\
  ~ settings_refused a /\
  (exists t, snd (fst x) = Some t /\
             map fst t = map pretty (seq 0 23) /\
             Forall (fun item => row_value (snd item) = None) t) /\
  (exists line, snd x = [LogLine line; LogLine "Ready."]).
Proof.
  intros x a. subst a x. destruct (init_result comports) as (line & ->).
  cbn [fst snd]. split; [|split; [reflexivity|split; [reflexivity|split; [reflexivity|]]]].
  { unfold consistent; cbn. repeat split; try discriminate.
    intros [? ?]; discriminate. }
  split.
  { unfold settings_refused; cbn.
    intros [Hb|[Hb|[(n & Hn & Hb)|Hb]]].
    - discriminate Hb.
    - discriminate Hb.
    - change (Py.int "1") with (@Ret Z 1) in Hn. injection Hn as <-. lia.
    - change (Py.upper (Py.strip "E")) with "E" in Hb. apply Hb. left. }
  split; [|eexists; reflexivity].
  eexists. split; [reflexivity|]. split; [reflexivity|].
  repeat constructor.
Qed.

(** X24. The first press on Connect after start-up.  With no port
    enumerated it only shows the box asking to select a port.  With a
    port enumerated whose name is not blank, it builds the client for the
    first port of the preferred list at 19200 baud with parity E and
    tries to open it. *)
Theorem first_connect_after_init (comports : list string) :
  let a := fst (fst (__init__ (C := C) comports)) in
  let x := _connect a in
  (comports = [] ->
     x = (Ret (), a, [ShowError "Error" "Select a serial port."])) /\
  (forall p, head (list_serial_ports_preferred comports) = Some p ->
     Py.strip p <> "" ->
     fst (fst x) = Ret () /\
     (snd x) !! 0%nat = Some (NewClient (Py.strip p) 19200 "E") /\
     (snd x) !! 1%nat
       = Some (Connect (fst (connect (new_client (Py.strip p) 19200 "E"))))).
Proof.
  intros a x. subst x a. destruct (init_result comports) as (line & ->).
  cbn [fst snd]. split.
  - intros ->. reflexivity.
  - intros p Hp Hstrip. rewrite Hp. change (default "" (Some p)) with p.
    set (a := set_port_var p (init_app (C := C) DEFAULT_REGS "" "19200" "E" "1" "1000" false)).
    destruct (connect_paths a eq_refl) as [(msg & _ & [Hp'|Hbad])|Hgood].
    + contradiction.
    + exfalso. destruct Hbad as [Hb|[Hb|[(n & Hn & Hb)|Hb]]].
      * discriminate Hb.
      * discriminate Hb.
      * change (builtin_int (slave_var a)) with (@Ret Z 1) in Hn.
        injection Hn as <-. lia.
      * apply Hb. left.
    + destruct Hgood as (baud & slave & _ & Hb & Hs & _ & _ & E).
      change (builtin_int (baud_var a)) with (@Ret Z 19200) in Hb. injection Hb as <-.
      change (builtin_int (slave_var a)) with (@Ret Z 1) in Hs. injection Hs as <-.
      rewrite E. change (Py.upper (Py.strip (parity_var a))) with "E".
      change (port_var a) with p.
      destruct (connect (new_client (Py.strip p) 19200 "E")) as [[|] c];
        repeat split.
Qed.

End Startup.
